(** * SahayAI: inference orchestration and document sessions

    A shallow embedding of [scripts/unified_api.py] (grievance
    classification, spam detection and the combined endpoint) and of
    [scripts/main.py] (PDF sessions and question answering), with the
    properties of the design document stated over it.

    Conventions.
    - A Python [str] is a list of Unicode code points ([text]).
    - A Python [float] that is a number is a rational ([Q]).
    - The trained models, the PDF reader and the generative backend are
      opaque collaborators: they are functions that either return a value
      or raise an exception whose [str()] is recorded ([outcome]).
    - Module-level globals are fields of an explicit state record. *)

From Stdlib Require Import ZArith NArith QArith Lia.
From Stdlib Require Import Strings.String Strings.Ascii.
From stdpp Require Import base option list gmap strings.

Set Default Proof Using "Type".

(** ** The Python runtime: strings, exceptions, a few builtins *)

Abbreviation text := (list N).

Module Py.

(** A string literal of the source as code points. *)
Definition str (s : string) : text :=
  (fun a => N_of_ascii a) <$> list_ascii_of_string s.

(** [str.isspace] on one character: the code points CPython treats as
    whitespace. *)
Definition isspace (c : N) : bool :=
  ((9 <=? c) && (c <=? 13) || (28 <=? c) && (c <=? 32)
   || (c =? 0x85) || (c =? 0xA0) || (c =? 0x1680)
   || (0x2000 <=? c) && (c <=? 0x200A)
   || (c =? 0x2028) || (c =? 0x2029) || (c =? 0x202F)
   || (c =? 0x205F) || (c =? 0x3000))%N.

Fixpoint lstrip (s : text) : text :=
  match s with
  | c :: s' => if isspace c then lstrip s' else s
  | [] => []
  end.

Definition rstrip (s : text) : text := rev (lstrip (rev s)).

(** [s.strip()] *)
Definition strip (s : text) : text := rstrip (lstrip s).

(** [sep.join(parts)] *)
Fixpoint join (sep : text) (parts : list text) : text :=
  match parts with
  | [] => []
  | [p] => p
  | p :: rest => p ++ sep ++ join sep rest
  end.

(** [s.endswith(suffix)] *)
Definition endswith (s suffix : text) : bool :=
  bool_decide (drop (length s - length suffix) s = suffix).

(** [str.lower] on the code points of Basic Latin, of the Latin-1
    Supplement and on U+0130, whose lower case is the two code points
    U+0069 U+0307 (Unicode SpecialCasing).  Every other code point is
    left as it is, which is not what [str.lower] does outside these
    ranges: the endpoints below take the case mapping as a parameter,
    and this instance serves only the concrete runs, whose texts stay
    inside the ranges. *)
Definition lower_char (c : N) : text :=
  if ((0x41 <=? c) && (c <=? 0x5A))%N then [(c + 32)%N]
  else if ((0xC0 <=? c) && (c <=? 0xDE) && negb (c =? 0xD7))%N then [(c + 32)%N]
  else if (c =? 0x130)%N then [0x69%N; 0x307%N]
  else [c].

Definition lower (s : text) : text := s ≫= lower_char.

(** What a call into a collaborator does: it returns, or it raises an
    exception [e] (not an [HTTPException]) with [str(e) = msg]. *)
Inductive outcome (A : Type) : Type :=
  | Ok (a : A)
  | Failed (msg : text).
Arguments Ok {A} a.
Arguments Failed {A} msg.

(** Exceptions seen by an endpoint body. *)
Inductive exn : Type :=
  | HTTPException (status_code : Z) (detail : text)
  | Exception (msg : text).

(** The result of running Python code that may raise. *)
Inductive py (A : Type) : Type :=
  | Return (a : A)
  | Raise (e : exn).
Arguments Return {A} a.
Arguments Raise {A} e.

#[global] Instance py_ret : MRet py := fun A a => Return a.
#[global] Instance py_bind : MBind py := fun A B f m =>
  match m with
  | Return a => f a
  | Raise e => Raise e
  end.

(** A collaborator call inside an endpoint body. *)
Definition call {A} (o : outcome A) : py A :=
  match o with
  | Ok a => Return a
  | Failed msg => Raise (Exception msg)
  end.

(** [try: body  except HTTPException: raise
     except Exception as e: raise HTTPException(500, prefix + str(e))] *)
Definition try_except {A} (body : py A) (prefix : text) : py A :=
  match body with
  | Raise (Exception msg) => Raise (HTTPException 500 (prefix ++ msg))
  | _ => body
  end.

(** [np.argmax] of a one-dimensional array: the first index of a maximal
    entry; an empty array raises [ValueError]. *)
Fixpoint argmax_from (best_i : nat) (best : Q) (i : nat) (l : list Q) : nat :=
  match l with
  | [] => best_i
  | x :: l' =>
      if Qle_bool x best then argmax_from best_i best (S i) l'
      else argmax_from i x (S i) l'
  end.

Definition argmax (l : list Q) : outcome nat :=
  match l with
  | [] => Failed (str "attempt to get argmax of an empty sequence")
  | x :: l' => Ok (argmax_from 0 x 1 l')
  end.

(** [a[i]] on an array, [IndexError] out of range. *)
Definition getitem (l : list Q) (i : nat) : outcome Q :=
  match l !! i with
  | Some x => Ok x
  | None => Failed (str "index out of bounds")
  end.

(** The failure kinds of the design document, as predicates on results. *)
Definition raises {A} (r : py A) (code : Z) : Prop :=
  exists detail, r = Raise (HTTPException code detail).

Definition InvalidInput {A} (r : py A) : Prop := raises r 400.
Definition ServiceUnavailable {A} (r : py A) : Prop := raises r 503.

End Py.
Import Py.

(** ** scripts/unified_api.py *)

Module UnifiedApi.

(** [class GrievanceRequest(BaseModel)] *)
Record GrievanceRequest := { description : text }.

(** The dictionaries the three endpoints return. *)
Module Classification.
Record t := { grievance_category : text; confidence_score : option Q }.
End Classification.

Module Spam.
Record t := { is_spam : bool; confidence_score : option Q }.
End Spam.

Module Combined.
Record t := {
  grievance_category : text;
  is_spam : bool;
  category_confidence : option Q;
  spam_confidence : option Q
}.
End Combined.

(** A file on disk: absent, present but failing to load (the message of
    the exception), or holding an object. *)
Inductive file (A : Type) : Type :=
  | Missing
  | Unreadable (msg : text)
  | Stored (a : A).
Arguments Missing {A}.
Arguments Unreadable {A} msg.
Arguments Stored {A} a.

(** [os.path.exists(path)] *)
Definition exists_ {A} (f : file A) : bool :=
  match f with Missing => false | _ => true end.

(** [joblib.load(path)], [pickle.load(open(path, "rb"))],
    [Booster.load_model(path)] *)
Definition load {A} (f : file A) : py A :=
  match f with
  | Stored a => Return a
  | Unreadable msg => Raise (Exception msg)
  | Missing => Raise (Exception (str "No such file or directory"))
  end.

Section Models.

(** The sparse matrix a vectorizer produces and its dense form. *)
Context {features dense : Type}.

(** [description_vectorized.toarray()] *)
Variable toarray : features -> outcome dense.

(** [str.lower], the full Unicode case mapping of the runtime. *)
Variable str_lower : text -> text.

(** A grievance classifier: [predict_proba] is [None] when
    [hasattr(grievance_classifier, 'predict_proba')] is false.  Both
    methods are applied to a one-row input and give that row's result:
    [predict_proba(X)[0]] and [predict(X)[0]]. *)
Record Classifier := {
  predict_proba : option (features -> outcome (list Q));
  predict : dense -> outcome Z
}.

(** [vectorizer.transform([s])] *)
Record Vectorizer := { transform : text -> outcome features }.

(** [label_encoder.inverse_transform([i])[0]] *)
Record LabelEncoder := { inverse_transform : Z -> outcome text }.

(** The spam pipeline takes raw text: [predict_proba([s])[0]] and
    [predict([s])[0]]. *)
Record SpamModel := {
  spam_predict_proba : option (text -> outcome (list Q));
  spam_predict : text -> outcome Z
}.

(** The module-level model variables. *)
Record globals := {
  grievance_classifier : option Classifier;
  vectorizer : option Vectorizer;
  label_encoder : option LabelEncoder;
  spam_detection_model : option SpamModel
}.

(** Their values when the module is imported. *)
Definition initial : globals :=
  {| grievance_classifier := None; vectorizer := None;
     label_encoder := None; spam_detection_model := None |}.

(** *** load_models *)

(** The artifact files.  A pickle holds any Python object, so what
    [joblib.load] or [pickle.load] returns is a model or [None]; the
    XGBoost file is read into a booster that exists already. *)
Record disk := {
  grievance_classifier_pkl : file (option Classifier);
  grievance_classifier_json : file Classifier;
  vectorizer_pkl : file (option Vectorizer);
  label_encoder_pkl : file (option LabelEncoder);
  model_pkl : file (option SpamModel)
}.

(** [import xgboost as xgb] succeeds or raises, and [xgb.Booster()] is a
    booster with no model in it. *)
Variable import_xgboost : outcome unit.
Variable Booster : Classifier.

(** Statements that assign globals and may raise: the globals assigned so
    far survive an exception. *)
Definition stmt (A : Type) : Type := globals -> globals * py A.

Definition seq {A B} (s1 : stmt A) (s2 : A -> stmt B) : stmt B :=
  fun g =>
    match s1 g with
    | (g1, Return a) => s2 a g1
    | (g1, Raise e) => (g1, Raise e)
    end.

Definition pure {A} (m : py A) : stmt A := fun g => (g, m).

Definition set_grievance_classifier (c : option Classifier) : stmt unit :=
  fun g => ({| grievance_classifier := c; vectorizer := vectorizer g;
               label_encoder := label_encoder g;
               spam_detection_model := spam_detection_model g |}, Return tt).

Definition set_vectorizer (v : option Vectorizer) : stmt unit :=
  fun g => ({| grievance_classifier := grievance_classifier g;
               vectorizer := v; label_encoder := label_encoder g;
               spam_detection_model := spam_detection_model g |}, Return tt).

Definition set_label_encoder (l : option LabelEncoder) : stmt unit :=
  fun g => ({| grievance_classifier := grievance_classifier g;
               vectorizer := vectorizer g; label_encoder := l;
               spam_detection_model := spam_detection_model g |}, Return tt).

Definition set_spam_detection_model (m : option SpamModel) : stmt unit :=
  fun g => ({| grievance_classifier := grievance_classifier g;
               vectorizer := vectorizer g; label_encoder := label_encoder g;
               spam_detection_model := m |}, Return tt).

Definition FileNotFoundError (s : string) : exn := Exception (str s).

(** The body of the [try] of [load_models], statement by statement. *)
Definition load_models_body (d : disk) : stmt unit :=
  seq (if exists_ (grievance_classifier_pkl d) then
         seq (pure (load (grievance_classifier_pkl d))) set_grievance_classifier
       else if exists_ (grievance_classifier_json d) then
         seq (pure (call import_xgboost)) (fun _ =>
         seq (set_grievance_classifier (Some Booster)) (fun _ =>
         seq (pure (load (grievance_classifier_json d)))
             (fun loaded => set_grievance_classifier (Some loaded))))
       else
         pure (Raise (FileNotFoundError
           "grievance_classifier.pkl or grievance_classifier.json not found")))
  (fun _ =>
  seq (if exists_ (vectorizer_pkl d) then
         seq (pure (load (vectorizer_pkl d))) set_vectorizer
       else pure (Raise (FileNotFoundError "vectorizer.pkl not found")))
  (fun _ =>
  seq (if exists_ (label_encoder_pkl d) then
         seq (pure (load (label_encoder_pkl d))) set_label_encoder
       else pure (Raise (FileNotFoundError "label_encoder.pkl not found")))
  (fun _ =>
  seq (if exists_ (model_pkl d) then
         seq (pure (load (model_pkl d))) set_spam_detection_model
       else pure (Raise (FileNotFoundError "model.pkl not found")))
  (fun _ => pure (Return tt))))).

(** [load_models()]: [True] when the body ran to its end, [False] when
    any exception was caught. *)
Definition load_models (d : disk) (g : globals) : globals * bool :=
  match load_models_body d g with
  | (g', Return _) => (g', true)
  | (g', Raise _) => (g', false)
  end.

(** The globals after [startup_event]. *)
Definition startup (d : disk) : globals := fst (load_models d initial).

(** *** The endpoints *)

(** [grievance_classifier is None or vectorizer is None or
     label_encoder is None] *)
Definition grievance_missing (g : globals) : bool :=
  match grievance_classifier g, vectorizer g, label_encoder g with
  | Some _, Some _, Some _ => false
  | _, _, _ => true
  end.

(** [spam_detection_model is None] *)
Definition spam_missing (g : globals) : bool :=
  match spam_detection_model g with
  | Some _ => false
  | None => true
  end.

(** [not request.description or len(request.description.strip()) < 5] *)
Definition too_short (request : GrievanceRequest) : bool :=
  bool_decide (description request = []) ||
  (length (strip (description request)) <? 5)%nat.

(** [bool(x)] on a number *)
Definition bool_of_Z (z : Z) : bool := negb (z =? 0)%Z.

Definition classify_grievance (g : globals) (request : GrievanceRequest)
  : py Classification.t :=
  try_except
    (match grievance_classifier g, vectorizer g, label_encoder g with
     | Some clf, Some vec, Some enc =>
         if too_short request then
           Raise (HTTPException 400 (str
             "Invalid grievance description. Please provide a more detailed text."))
         else
           let description_cleaned := str_lower (description request) in
           description_vectorized ← call (transform vec description_cleaned);
           match predict_proba clf with
           | Some proba =>
               probabilities ← call (proba description_vectorized);
               prediction_idx ← call (argmax probabilities);
               confidence ← call (getitem probabilities prediction_idx);
               category_prediction ←
                 call (inverse_transform enc (Z.of_nat prediction_idx));
               mret {| Classification.grievance_category := category_prediction;
                       Classification.confidence_score := Some confidence |}
           | None =>
               description_vectorized_array ← call (toarray description_vectorized);
               numeric_prediction ← call (predict clf description_vectorized_array);
               category_prediction ← call (inverse_transform enc numeric_prediction);
               mret {| Classification.grievance_category := category_prediction;
                       Classification.confidence_score := None |}
           end
     | _, _, _ =>
         Raise (HTTPException 503 (str
           "Grievance classification service unavailable - models not loaded. Check API logs."))
     end)
    (str "Classification error: ").

Definition detect_spam (g : globals) (request : GrievanceRequest)
  : py Spam.t :=
  try_except
    (match spam_detection_model g with
     | None =>
         Raise (HTTPException 503 (str
           "Spam detection service unavailable - model not loaded. Check API logs."))
     | Some model =>
         if too_short request then
           Raise (HTTPException 400 (str
             "Invalid text for spam detection. Please provide a more detailed text."))
         else
           match spam_predict_proba model with
           | Some proba =>
               probabilities ← call (proba (description request));
               idx ← call (argmax probabilities);
               let is_spam := bool_of_Z (Z.of_nat idx) in
               idx' ← call (argmax probabilities);
               confidence ← call (getitem probabilities idx');
               mret {| Spam.is_spam := is_spam;
                       Spam.confidence_score := Some confidence |}
           | None =>
               prediction ← call (spam_predict model (description request));
               mret {| Spam.is_spam := bool_of_Z prediction;
                       Spam.confidence_score := None |}
           end
     end)
    (str "Spam detection error: ").

(** The list [models_missing] built by [analyze_grievance]. *)
Definition models_missing (g : globals) : list text :=
  (if grievance_missing g then [str "grievance classification"] else []) ++
  (if spam_missing g then [str "spam detection"] else []).

Definition analyze_grievance (g : globals) (request : GrievanceRequest)
  : py Combined.t :=
  try_except
    (match models_missing g with
     | _ :: _ =>
         Raise (HTTPException 503
           (str "The following services are unavailable: " ++
            join (str ", ") (models_missing g)))
     | [] =>
         if too_short request then
           Raise (HTTPException 400 (str
             "Invalid grievance description. Please provide a more detailed text."))
         else
           classification_result ← classify_grievance g request;
           spam_result ← detect_spam g request;
           mret {| Combined.grievance_category :=
                     Classification.grievance_category classification_result;
                   Combined.is_spam := Spam.is_spam spam_result;
                   Combined.category_confidence :=
                     Classification.confidence_score classification_result;
                   Combined.spam_confidence :=
                     Spam.confidence_score spam_result |}
     end)
    (str "Combined analysis error: ").

End Models.

Arguments Classifier : clear implicits.
Arguments SpamModel : clear implicits.
Arguments globals : clear implicits.
Arguments disk : clear implicits.

End UnifiedApi.

(** ** scripts/main.py *)

Module Main.

#[global] Instance outcome_ret : MRet outcome := fun A a => Ok a.
#[global] Instance outcome_bind : MBind outcome := fun A B f m =>
  match m with
  | Ok a => f a
  | Failed msg => Failed msg
  end.

Record GrievanceRequest := { description : text }.

Record QuestionRequest := { query : text; session_id : text }.

(** The part of [UploadFile] the endpoint reads: the name and the bytes
    that [await pdf_files.read()] gives. *)
Record UploadFile := { filename : text; read : outcome (list Byte.byte) }.

(** The dictionaries the endpoints return. *)
Module Upload.
Record t := { message : text; pages : nat; session_id : text }.
End Upload.

Record Answer := { answer : text }.

Record Prediction := { spam : bool }.

(** *** str(uuid.uuid4()) *)

(** [uuid.UUID(bytes=os.urandom(16), version=4).int]: the sixteen random
    bytes read as a big-endian integer, with the variant and version bits
    set as [UUID.__init__] sets them. *)
Definition uuid4 (urandom16 : N) : N :=
  let int := N.land urandom16 (N.ones 128) in
  let int := N.ldiff int (N.shiftl 0xc000 48) in
  let int := N.lor int (N.shiftl 0x8000 48) in
  let int := N.ldiff int (N.shiftl 0xf000 64) in
  N.lor int (N.shiftl 4 76).

Definition hexdigit (d : N) : N :=
  if (d <? 10)%N then (48 + d)%N else (87 + d)%N.

(** ['%0<width>x' % n] for [n] below [16 ^ width] *)
Fixpoint hex (width : nat) (n : N) : text :=
  match width with
  | O => []
  | S w => hexdigit (N.land (N.shiftr n (4 * N.of_nat w)) 15) :: hex w n
  end.

(** [str(UUID(int=n))]: 8-4-4-4-12 hexadecimal digits. *)
Definition uuid_str (n : N) : text :=
  let h := hex 32 n in
  take 8 h ++ str "-" ++ take 4 (drop 8 h) ++ str "-" ++
  take 4 (drop 12 h) ++ str "-" ++ take 4 (drop 16 h) ++ str "-" ++
  drop 20 h.

(** [os.getenv("GEMINI_API_KEY", "your_api_key_here")] *)
Definition getenv (value : option text) (default : text) : text :=
  match value with
  | Some v => v
  | None => default
  end.

Section Collaborators.

(** A page object of PyPDF2. *)
Context {page : Type}.

(** [PyPDF2.PdfReader(io.BytesIO(pdf_bytes)).pages] *)
Variable PdfReader : list Byte.byte -> outcome (list page).

(** [page.extract_text()] *)
Variable extract_text : page -> outcome text.

(** The environment variable GEMINI_API_KEY, when it is set. *)
Variable environ_GEMINI_API_KEY : option text.

(** [genai.GenerativeModel('gemini-1.5-flash').generate_content(prompt).text] *)
Variable generate_content : text -> outcome text.

(** [model.predict([description])[0]] of the pickled spam model. *)
Variable model_predict : text -> outcome Z.

Definition GEMINI_API_KEY : text :=
  getenv environ_GEMINI_API_KEY (str "your_api_key_here").

(** [for page in pdf_reader.pages: text_content += page.extract_text() + "\n"] *)
Fixpoint extract_pages (pages : list page) (text_content : text) : outcome text :=
  match pages with
  | [] => Ok text_content
  | page :: rest =>
      t ← extract_text page;
      extract_pages rest (text_content ++ t ++ str (String "010" EmptyString))
  end.

(** [init_rag]; [urandom16] is the randomness [uuid.uuid4()] draws. *)
Definition init_rag (pdf_files : UploadFile) (urandom16 : N)
    (pdf_sessions : gmap text text) : gmap text text * py Upload.t :=
  if negb (endswith (filename pdf_files) (str ".pdf")) then
    (pdf_sessions, Raise (HTTPException 400 (str "Only PDF files are allowed")))
  else
    match (pdf_bytes ← read pdf_files;
           pages ← PdfReader pdf_bytes;
           text_content ← extract_pages pages [];
           mret (pages, text_content)) with
    | Ok (pages, text_content) =>
        let session_id := uuid_str (uuid4 urandom16) in
        (<[session_id := text_content]> pdf_sessions,
         Return {| Upload.message := str "PDF processed successfully";
                   Upload.pages := length pages;
                   Upload.session_id := session_id |})
    | Failed msg =>
        (pdf_sessions,
         Raise (HTTPException 500 (str "Error processing PDF: " ++ msg)))
    end.

(** The f-string of [ask_question]; the text after the slice, up to the
    end of its line, is inside the string literal and so part of the
    prompt. *)
Definition prompt (pdf_content query : text) : text :=
  let nl := String "010" EmptyString in
  let indent := "        "%string in
  str (nl ++ indent ++
       "Based on the following PDF content, please answer the question accurately and concisely."
       ++ nl ++ indent ++ nl ++ indent ++ "PDF Content:" ++ nl ++ indent) ++
  take (N.to_nat 10000) pdf_content ++
  str ("  # Limit to first 10k characters to avoid token limits"
       ++ nl ++ indent ++ nl ++ indent ++ "Question: ") ++
  query ++
  str (nl ++ indent ++ nl ++ indent ++
       "Please provide a clear and helpful answer based only on the information in the PDF."
       ++ nl ++ indent).

Definition ask_question (request : QuestionRequest)
    (pdf_sessions : gmap text text) : py Answer :=
  match pdf_sessions !! session_id request with
  | None =>
      Raise (HTTPException 400 (str "Invalid session ID. Please upload a PDF first."))
  | Some pdf_content =>
      if bool_decide (pdf_content = []) then
        Raise (HTTPException 400 (str "No PDF content found for this session."))
      else if bool_decide (GEMINI_API_KEY = str "your_api_key_here") then
        Raise (HTTPException 503 (str
          "Gemini API key not configured. Please set GEMINI_API_KEY environment variable."))
      else
        match generate_content (prompt pdf_content (query request)) with
        | Ok response_text => Return {| answer := response_text |}
        | Failed msg =>
            Raise (HTTPException 500 (str "Error generating answer: " ++ msg))
        end
  end.

(** [predict] has no handler: an exception of the model leaves it as it is. *)
Definition predict (request : GrievanceRequest) : py Prediction :=
  prediction ← call (model_predict (description request));
  mret {| spam := UnifiedApi.bool_of_Z prediction |}.

(** *** The server as a transition system on [pdf_sessions] *)

Inductive request : Type :=
  | POST_predict (r : GrievanceRequest)
  | POST_init_rag (pdf_files : UploadFile) (urandom16 : N)
  | POST_ask_question (r : QuestionRequest).

Inductive response : Type :=
  | PredictResponse (r : py Prediction)
  | UploadResponse (r : py Upload.t)
  | AnswerResponse (r : py Answer).

Definition handle (rq : request) (pdf_sessions : gmap text text)
  : gmap text text * response :=
  match rq with
  | POST_predict r => (pdf_sessions, PredictResponse (predict r))
  | POST_init_rag f rnd =>
      let '(s, r) := init_rag f rnd pdf_sessions in (s, UploadResponse r)
  | POST_ask_question r => (pdf_sessions, AnswerResponse (ask_question r pdf_sessions))
  end.

(** The session map after a sequence of requests. *)
Fixpoint run (rqs : list request) (pdf_sessions : gmap text text)
  : gmap text text :=
  match rqs with
  | [] => pdf_sessions
  | rq :: rest => run rest (fst (handle rq pdf_sessions))
  end.

(** Every identifier drawn by an upload of the sequence is new to the
    session map at the time it is drawn. *)
Fixpoint fresh_ids (rqs : list request) (pdf_sessions : gmap text text) : Prop :=
  match rqs with
  | [] => True
  | rq :: rest =>
      match rq with
      | POST_init_rag _ rnd => pdf_sessions !! uuid_str (uuid4 rnd) = None
      | _ => True
      end /\ fresh_ids rest (fst (handle rq pdf_sessions))
  end.

End Collaborators.

(** The failure kinds of the question-answering pipeline. *)
Definition SessionNotFound {A} (r : py A) : Prop :=
  r = Raise (HTTPException 400 (str "Invalid session ID. Please upload a PDF first.")).

Definition EmptyDocument {A} (r : py A) : Prop :=
  r = Raise (HTTPException 400 (str "No PDF content found for this session.")).

Definition BackendNotConfigured {A} (r : py A) : Prop :=
  r = Raise (HTTPException 503 (str
    "Gemini API key not configured. Please set GEMINI_API_KEY environment variable.")).

Definition GenerationFailed {A} (r : py A) (msg : text) : Prop :=
  r = Raise (HTTPException 500 (str "Error generating answer: " ++ msg)).

End Main.

(** ** Specification vocabulary *)

Module Spec.

(** The probability row a predictor returns has every entry in [0,1]. *)
Definition is_distribution {A} (proba : A -> outcome (list Q)) : Prop :=
  forall x probs, proba x = Ok probs ->
    Forall (fun p => (0 <= p)%Q /\ (p <= 1)%Q) probs.

(** [i] is the arg-max index of [l]: the entry at [i] bounds every entry,
    and strictly bounds those before it. *)
Definition is_argmax (l : list Q) (i : nat) : Prop :=
  exists m, l !! i = Some m /\
    (forall j x, l !! j = Some x -> (x <= m)%Q) /\
    (forall j x, l !! j = Some x -> (j < i)%nat -> (x < m)%Q).

(** A confidence, when present, is in [0,1]. *)
Definition confidence_ok (c : option Q) : Prop :=
  forall p, c = Some p -> (0 <= p)%Q /\ (p <= 1)%Q.

(** The merge of a classification and a spam verdict into one combined
    result, as the design document describes it. *)
Definition merge (c : UnifiedApi.Classification.t) (s : UnifiedApi.Spam.t)
  : UnifiedApi.Combined.t :=
  {| UnifiedApi.Combined.grievance_category :=
       UnifiedApi.Classification.grievance_category c;
     UnifiedApi.Combined.is_spam := UnifiedApi.Spam.is_spam s;
     UnifiedApi.Combined.category_confidence :=
       UnifiedApi.Classification.confidence_score c;
     UnifiedApi.Combined.spam_confidence := UnifiedApi.Spam.confidence_score s |}.

(** The object an artifact file loads to: nothing when the file is
    missing or loading it raises. *)
Definition loaded {A} (f : UnifiedApi.file A) : option A :=
  match f with
  | UnifiedApi.Stored a => Some a
  | _ => None
  end.

(** The object the classifier stage assigns when it does not raise: the
    content of the pickle when that file exists, and otherwise the
    booster read from the XGBoost file, which needs the import to
    succeed. *)
Definition classifier_loaded {features dense} (import_xgboost : outcome unit)
    (d : UnifiedApi.disk features dense)
  : option (option (UnifiedApi.Classifier features dense)) :=
  match UnifiedApi.grievance_classifier_pkl d with
  | UnifiedApi.Stored c => Some c
  | UnifiedApi.Unreadable _ => None
  | UnifiedApi.Missing =>
      match import_xgboost with
      | Ok _ => Some <$> loaded (UnifiedApi.grievance_classifier_json d)
      | Failed _ => None
      end
  end.

(** The classifier stage raised after it had assigned the empty booster:
    no pickle, the import succeeded, and [load_model] failed on the
    XGBoost file. *)
Definition booster_left {features dense} (import_xgboost : outcome unit)
    (d : UnifiedApi.disk features dense) : bool :=
  match UnifiedApi.grievance_classifier_pkl d, import_xgboost,
        UnifiedApi.grievance_classifier_json d with
  | UnifiedApi.Missing, Ok _, UnifiedApi.Unreadable _ => true
  | _, _, _ => false
  end.

End Spec.
Import Spec.

(** ** Concrete models, disks and documents for the runs below *)

Module Sample.
Import UnifiedApi.

(** Three categories; the probabilistic classifier prefers index 1. *)
Definition encoder : LabelEncoder :=
  {| inverse_transform := fun z =>
       if (z =? 0)%Z then Ok (str "water")
       else if (z =? 1)%Z then Ok (str "roads")
       else if (z =? 2)%Z then Ok (str "electricity")
       else Failed (str "y contains previously unseen labels") |}.

Definition tfidf : Vectorizer := {| transform := fun s => Ok s |}.

Definition dense_of (s : text) : outcome text := Ok s.

Definition forest : Classifier text text :=
  {| predict_proba := Some (fun _ => Ok [1 # 10; 7 # 10; 2 # 10]%Q);
     predict := fun _ => Ok 1%Z |}.

Definition booster : Classifier text text :=
  {| predict_proba := None; predict := fun _ => Ok 2%Z |}.

Definition empty_booster : Classifier text text :=
  {| predict_proba := None;
     predict := fun _ => Failed (str "need to call fit or load_model beforehand") |}.

Definition spam_proba : SpamModel :=
  {| spam_predict_proba := Some (fun _ => Ok [3 # 100; 97 # 100]%Q);
     spam_predict := fun _ => Ok 1%Z |}.

Definition spam_hard : SpamModel :=
  {| spam_predict_proba := None; spam_predict := fun _ => Ok 1%Z |}.

Definition all_loaded : globals text text :=
  {| grievance_classifier := Some forest; vectorizer := Some tfidf;
     label_encoder := Some encoder; spam_detection_model := Some spam_proba |}.

Definition hard_loaded : globals text text :=
  {| grievance_classifier := Some booster; vectorizer := Some tfidf;
     label_encoder := Some encoder; spam_detection_model := Some spam_hard |}.


Definition full_disk : disk text text :=
  {| grievance_classifier_pkl := Stored (Some forest);
     grievance_classifier_json := Missing;
     vectorizer_pkl := Stored (Some tfidf);
     label_encoder_pkl := Stored (Some encoder);
     model_pkl := Stored (Some spam_proba) |}.

Definition pothole : GrievanceRequest :=
  {| description := str "Large pothole on the main road" |}.

Definition hi : GrievanceRequest := {| description := str "hi" |}.

(** "i" followed by U+0307 (combining dot above) and "abc"; and U+0130
    (capital I with dot above) followed by "abc". *)
Definition dotted_small : text := [0x69; 0x307; 0x61; 0x62; 0x63]%N.
Definition dotted_capital : text := [0x130; 0x61; 0x62; 0x63]%N.

(** Stubs for the collaborators of scripts/main.py: a reader that makes
    one page of every byte of the upload, a blank page for a zero byte. *)
Definition stub_reader (pdf_bytes : list Byte.byte) : outcome (list text) :=
  Ok ((fun b => if Byte.eqb b Byte.x00 then []
                else str "Refund policy: 30 days.") <$> pdf_bytes).

Definition stub_extract (page : text) : outcome text := Ok page.

Definition stub_backend (prompt : text) : outcome text := Ok (str "30 days").

Definition failing_backend (prompt : text) : outcome text :=
  Failed (str "429 Resource has been exhausted").

Definition stub_model (description : text) : outcome Z := Ok 0%Z.

Definition three_pages : Main.UploadFile :=
  {| Main.filename := str "policy.pdf";
     Main.read := Ok [Byte.x01; Byte.x01; Byte.x01] |}.

Definition no_pages : Main.UploadFile :=
  {| Main.filename := str "empty.pdf"; Main.read := Ok [] |}.

Definition api_key : option text := Some (str "AIza-sample-key").

(** A session map with one document in it. *)
Definition one_session : gmap text text :=
  {[ str "doc-1" := str "Refund policy: 30 days." ]}.

Definition refund_question : Main.QuestionRequest :=
  {| Main.query := str "What is the refund window?";
     Main.session_id := str "doc-1" |}.

Definition unknown_session : Main.QuestionRequest :=
  {| Main.query := str "any query"; Main.session_id := str "not-a-real-id" |}.

(** What uploading [three_pages] answers when the random bytes are zero. *)
Definition three_pages_response : Main.Upload.t :=
  {| Main.Upload.message := str "PDF processed successfully";
     Main.Upload.pages := 3;
     Main.Upload.session_id := str "00000000-0000-4000-8000-000000000000" |}.

End Sample.

(** ** Further vocabulary *)

Module Vocabulary.

(** The sum of a probability row. *)
Definition Qsum (l : list Q) : Q := foldr Qplus 0%Q l.

(** A character is whitespace. *)
Definition spaces (s : text) : Prop := Forall (fun c => isspace c = true) s.

(** A lower-case hexadecimal digit. *)
Definition is_hex (c : N) : Prop :=
  (48 <= c /\ c <= 57)%N \/ (97 <= c /\ c <= 102)%N.

(** The text of a document whose pages have the texts [texts]: every page
    followed by a newline. *)
Definition document_text (texts : list text) : text :=
  concat ((fun t => t ++ str (String "010" EmptyString)) <$> texts).

(** The uploads among a sequence of requests. *)
Definition is_upload (rq : Main.request) : bool :=
  match rq with
  | Main.POST_init_rag _ _ => true
  | _ => false
  end.

Definition uploads (rqs : list Main.request) : nat :=
  length (filter (fun rq => is_upload rq = true) rqs).

(** The detail of a 500 answer of an endpoint starts with [prefix]. *)
Definition internal_error {A} (r : py A) (prefix : string) : Prop :=
  exists msg, r = Raise (HTTPException 500 (str prefix ++ msg)).

(** A body made of collaborator calls raises no [HTTPException]. *)
Definition calls_only {A} (body : py A) : Prop :=
  forall code detail, body <> Raise (HTTPException code detail).

(** The message of the first model call that raises while a description
    is classified: the vectorizer, then [predict_proba], [np.argmax] and
    the label decoder, or else [toarray], [predict] and the label
    decoder. *)
Definition classification_failure {features dense}
    (toarray : features -> outcome dense) (str_lower : text -> text)
    (clf : UnifiedApi.Classifier features dense)
    (vec : @UnifiedApi.Vectorizer features) (enc : UnifiedApi.LabelEncoder)
    (d msg : text) : Prop :=
  match UnifiedApi.transform vec (str_lower d) with
  | Failed m => m = msg
  | Ok x =>
      match UnifiedApi.predict_proba clf with
      | Some proba =>
          match proba x with
          | Failed m => m = msg
          | Ok probs =>
              match argmax probs with
              | Failed m => m = msg
              | Ok i => UnifiedApi.inverse_transform enc (Z.of_nat i) = Failed msg
              end
          end
      | None =>
          match toarray x with
          | Failed m => m = msg
          | Ok a =>
              match UnifiedApi.predict clf a with
              | Failed m => m = msg
              | Ok n => UnifiedApi.inverse_transform enc n = Failed msg
              end
          end
      end
  end.

(** The message of the first call that raises while a description is
    tested for spam. *)
Definition spam_failure (m : UnifiedApi.SpamModel) (d msg : text) : Prop :=
  match UnifiedApi.spam_predict_proba m with
  | Some proba =>
      match proba d with
      | Failed e => e = msg
      | Ok probs => argmax probs = Failed msg
      end
  | None => UnifiedApi.spam_predict m d = Failed msg
  end.

End Vocabulary.
Import Vocabulary.

(** ** Further concrete models and disks *)

Module Fixtures.
Import UnifiedApi Sample.

(** A classifier and a spam model that return an empty probability row. *)
Definition hollow_forest : Classifier text text :=
  {| predict_proba := Some (fun _ => Ok []); predict := fun _ => Ok 0%Z |}.

Definition hollow_spam : SpamModel :=
  {| spam_predict_proba := Some (fun _ => Ok []); spam_predict := fun _ => Ok 0%Z |}.

Definition hollow_loaded : globals text text :=
  {| grievance_classifier := Some hollow_forest; vectorizer := Some tfidf;
     label_encoder := Some encoder; spam_detection_model := Some hollow_spam |}.

(** A spam model that cannot decide. *)
Definition spam_tie : SpamModel :=
  {| spam_predict_proba := Some (fun _ => Ok [1 # 2; 1 # 2]%Q);
     spam_predict := fun _ => Ok 0%Z |}.

Definition tie_loaded : globals text text :=
  {| grievance_classifier := Some forest; vectorizer := Some tfidf;
     label_encoder := Some encoder; spam_detection_model := Some spam_tie |}.

(** Only the XGBoost file of the classifier is on disk, and it is broken. *)
Definition broken_xgboost : disk text text :=
  {| grievance_classifier_pkl := Missing;
     grievance_classifier_json := Unreadable (str "Check failed: model file is empty");
     vectorizer_pkl := Stored (Some tfidf);
     label_encoder_pkl := Stored (Some encoder);
     model_pkl := Stored (Some spam_proba) |}.

(** The vectorizer pickle holds [None]; everything else is in order. *)
Definition none_vectorizer : disk text text :=
  {| grievance_classifier_pkl := Stored (Some forest);
     grievance_classifier_json := Missing;
     vectorizer_pkl := Stored None;
     label_encoder_pkl := Stored (Some encoder);
     model_pkl := Stored (Some spam_proba) |}.

(** A one-page upload. *)
Definition one_page : Main.UploadFile :=
  {| Main.filename := str "note.pdf"; Main.read := Ok [Byte.x01] |}.

Definition padding_left : text := str "  ".
Definition padding_right : text := [32; 0xA0; 10]%N.

(** An extractor that fails on a blank page, and an upload whose second
    page is blank. *)
Definition strict_extract (page : text) : outcome text :=
  match page with
  | [] => Failed (str "page has no text layer")
  | _ => Ok page
  end.

Definition blank_second_page : Main.UploadFile :=
  {| Main.filename := str "scan.pdf";
     Main.read := Ok [Byte.x01; Byte.x00; Byte.x01] |}.

(** What uploading [three_pages] answers when the random bytes are 1. *)
Definition second_response : Main.Upload.t :=
  {| Main.Upload.message := str "PDF processed successfully";
     Main.Upload.pages := 3;
     Main.Upload.session_id := str "00000000-0000-4000-8000-000000000001" |}.

End Fixtures.

(** ** Facts about the runtime functions *)

Module PyFacts.

Lemma try_except_http {A} (body : py A) prefix code detail :
  body = Raise (HTTPException code detail) ->
  try_except body prefix = Raise (HTTPException code detail).
Proof. by intros ->. Qed.

(** What leaves a handler is a value or an [HTTPException]. *)
Lemma try_except_not_exception {A} (body : py A) prefix msg :
  try_except body prefix <> Raise (Exception msg).
Proof. destruct body as [a|[c d|m]]; discriminate. Qed.

Lemma try_except_idem {A} (body : py A) prefix prefix' :
  try_except (try_except body prefix) prefix' = try_except body prefix.
Proof. by destruct body as [a|[c d|m]]. Qed.

Lemma try_except_Return {A} (body : py A) prefix a :
  try_except body prefix = Return a -> body = Return a.
Proof. destruct body as [b|[c d|m]]; simpl; congruence. Qed.

Lemma bind_Return {A B} (m : py A) (k : A -> py B) b :
  m ≫= k = Return b -> exists a, m = Return a /\ k a = Return b.
Proof. destruct m as [a|e]; [eauto|discriminate]. Qed.

Lemma call_Return {A} (o : outcome A) a : call o = Return a -> o = Ok a.
Proof. destruct o; simpl; congruence. Qed.

Lemma getitem_Ok l i p : getitem l i = Ok p <-> l !! i = Some p.
Proof. unfold getitem. destruct (l !! i); split; congruence. Qed.

Lemma argmax_from_spec l : forall pre best_i best,
  pre !! best_i = Some best ->
  (forall j x, pre !! j = Some x -> (x <= best)%Q) ->
  (forall j x, pre !! j = Some x -> (j < best_i)%nat -> (x < best)%Q) ->
  is_argmax (pre ++ l) (argmax_from best_i best (length pre) l).
Proof.
  induction l as [|x l IH]; intros pre bi b Hb Hle Hlt; simpl.
  - rewrite app_nil_r. by exists b.
  - assert (Happ : pre ++ x :: l = (pre ++ [x]) ++ l) by by rewrite <- app_assoc.
    assert (Hlen : S (length pre) = length (pre ++ [x]))
      by (rewrite length_app; simpl; lia).
    pose proof (lookup_lt_Some _ _ _ Hb) as Hbi.
    rewrite Happ, Hlen.
    destruct (Qle_bool x b) eqn:E.
    + apply Qle_bool_iff in E. apply IH.
      * by apply lookup_app_l_Some.
      * intros j y Hj. apply lookup_app_Some in Hj as [Hj|[_ Hj]]; [eauto|].
        apply list_lookup_singleton_Some in Hj as [_ <-]. done.
      * intros j y Hj Hjb. rewrite lookup_app_l in Hj by lia. eauto.
    + assert (Hbx : (b < x)%Q).
      { apply Qnot_le_lt. intros H. apply Qle_bool_iff in H. congruence. }
      apply IH.
      * rewrite lookup_app_r by lia. by rewrite Nat.sub_diag.
      * intros j y Hj. apply lookup_app_Some in Hj as [Hj|[_ Hj]].
        -- apply Qlt_le_weak. eapply Qle_lt_trans; eauto.
        -- apply list_lookup_singleton_Some in Hj as [_ <-]. apply Qle_refl.
      * intros j y Hj Hjb. rewrite lookup_app_l in Hj by lia.
        eapply Qle_lt_trans; eauto.
Qed.

(** [np.argmax] returns the arg-max index. *)
Lemma argmax_spec l i : argmax l = Ok i -> is_argmax l i.
Proof.
  destruct l as [|x l]; [discriminate|]. intros [= <-].
  apply (argmax_from_spec l [x] 0%nat x).
  - done.
  - intros [|j] y Hj; simpl in Hj; [|done]. injection Hj as <-. apply Qle_refl.
  - intros j y _ Hj. lia.
Qed.

Lemma is_argmax_unique l i j : is_argmax l i -> is_argmax l j -> i = j.
Proof.
  intros (m & Hm & Hle & Hlt) (m' & Hm' & Hle' & Hlt').
  destruct (Nat.lt_total i j) as [H|[H|H]]; [|done|]; exfalso.
  - specialize (Hlt' _ _ Hm H). specialize (Hle _ _ Hm').
    by apply Qlt_not_le in Hlt'.
  - specialize (Hlt _ _ Hm' H). specialize (Hle' _ _ Hm).
    by apply Qlt_not_le in Hlt.
Qed.

Lemma argmax_total l i : is_argmax l i -> argmax l = Ok i.
Proof.
  intros Hi. destruct (argmax l) as [j|msg] eqn:E.
  - f_equal. eapply is_argmax_unique; [by apply argmax_spec|done].
  - destruct l; [|discriminate]. by destruct Hi as (m & Hm & _).
Qed.

End PyFacts.
Import PyFacts.

(** ** Properties of scripts/unified_api.py *)

Module UnifiedApiSpec.
Import UnifiedApi.

Section Endpoints.

Context {features dense : Type}.
Variable toarray : features -> outcome dense.
Variable str_lower : text -> text.

Local Abbreviation classify := (classify_grievance toarray str_lower).
Local Abbreviation analyze := (analyze_grievance toarray str_lower).
Local Abbreviation globals := (UnifiedApi.globals features dense).

Lemma too_short_of_length request :
  (length (strip (description request)) < 5)%nat -> too_short request = true.
Proof.
  intros H. unfold too_short. apply orb_true_iff. right.
  by apply Nat.ltb_lt.
Qed.

Lemma grievance_missing_false (g : globals) :
  grievance_missing g = false ->
  exists clf vec enc, grievance_classifier g = Some clf /\
    vectorizer g = Some vec /\ label_encoder g = Some enc.
Proof.
  unfold grievance_missing.
  destruct (grievance_classifier g), (vectorizer g), (label_encoder g);
    try discriminate; eauto 7.
Qed.

Lemma spam_missing_false (g : globals) :
  spam_missing g = false -> exists m, spam_detection_model g = Some m.
Proof. unfold spam_missing. destruct (spam_detection_model g); [eauto|done]. Qed.

Lemma classify_unavailable (g : globals) request :
  grievance_missing g = true ->
  classify g request = Raise (HTTPException 503 (str
    "Grievance classification service unavailable - models not loaded. Check API logs.")).
Proof.
  unfold grievance_missing, classify_grievance.
  by destruct (grievance_classifier g), (vectorizer g), (label_encoder g).
Qed.

Lemma detect_unavailable (g : globals) request :
  spam_missing g = true ->
  detect_spam g request = Raise (HTTPException 503 (str
    "Spam detection service unavailable - model not loaded. Check API logs.")).
Proof.
  unfold spam_missing, detect_spam. by destruct (spam_detection_model g).
Qed.

Lemma models_missing_nil (g : globals) :
  models_missing g = [] <-> grievance_missing g = false /\ spam_missing g = false.
Proof.
  unfold models_missing.
  destruct (grievance_missing g), (spam_missing g); simpl; split;
    solve [done | intros [? ?]; done].
Qed.

Lemma analyze_unavailable (g : globals) request :
  models_missing g <> [] ->
  analyze g request = Raise (HTTPException 503
    (str "The following services are unavailable: " ++
     join (str ", ") (models_missing g))).
Proof.
  unfold analyze_grievance. by destruct (models_missing g).
Qed.

Lemma classify_too_short (g : globals) request :
  grievance_missing g = false -> too_short request = true ->
  classify g request = Raise (HTTPException 400 (str
    "Invalid grievance description. Please provide a more detailed text.")).
Proof.
  intros Hg Hs.
  destruct (grievance_missing_false g Hg) as (clf & vec & enc & H1 & H2 & H3).
  unfold classify_grievance. by rewrite H1, H2, H3, Hs.
Qed.

Lemma detect_too_short (g : globals) request :
  spam_missing g = false -> too_short request = true ->
  detect_spam g request = Raise (HTTPException 400 (str
    "Invalid text for spam detection. Please provide a more detailed text.")).
Proof.
  intros Hg Hs. destruct (spam_missing_false g Hg) as [m Hm].
  unfold detect_spam. by rewrite Hm, Hs.
Qed.

Lemma analyze_too_short (g : globals) request :
  models_missing g = [] -> too_short request = true ->
  analyze g request = Raise (HTTPException 400 (str
    "Invalid grievance description. Please provide a more detailed text.")).
Proof.
  intros Hm Hs. unfold analyze_grievance. by rewrite Hm, Hs.
Qed.

(** *** Inversion of successful runs *)

Ltac invert_bind H :=
  repeat match type of H with
  | _ ≫= _ = Return _ =>
      let a := fresh "a" in let Ha := fresh "Ha" in
      apply bind_Return in H as (a & Ha & H); apply call_Return in Ha
  end.

Lemma classify_Return (g : globals) request r :
  classify g request = Return r ->
  exists clf vec enc x,
    grievance_classifier g = Some clf /\ vectorizer g = Some vec /\
    label_encoder g = Some enc /\ too_short request = false /\
    transform vec (str_lower (description request)) = Ok x /\
    ((exists proba probs i p,
        predict_proba clf = Some proba /\ proba x = Ok probs /\
        argmax probs = Ok i /\ probs !! i = Some p /\
        inverse_transform enc (Z.of_nat i) = Ok (Classification.grievance_category r) /\
        Classification.confidence_score r = Some p) \/
     (exists a n,
        predict_proba clf = None /\ toarray x = Ok a /\ predict clf a = Ok n /\
        inverse_transform enc n = Ok (Classification.grievance_category r) /\
        Classification.confidence_score r = None)).
Proof.
  unfold classify_grievance. intros H%try_except_Return.
  destruct (grievance_classifier g) as [clf|]; [|done].
  destruct (vectorizer g) as [vec|]; [|done].
  destruct (label_encoder g) as [enc|]; [|done].
  destruct (too_short request); [done|].
  apply bind_Return in H as (x & Hx%call_Return & H).
  exists clf, vec, enc, x. repeat (split; [done|]).
  destruct (predict_proba clf) as [proba|].
  - left. invert_bind H. injection H as <-.
    match goal with Hg : getitem _ _ = _ |- _ => apply getitem_Ok in Hg end.
    eauto 12.
  - right. invert_bind H. injection H as <-. eauto 10.
Qed.

Lemma detect_Return (g : globals) request r :
  detect_spam g request = Return r ->
  exists m,
    spam_detection_model g = Some m /\ too_short request = false /\
    ((exists proba probs i p,
        spam_predict_proba m = Some proba /\
        proba (description request) = Ok probs /\
        argmax probs = Ok i /\ probs !! i = Some p /\
        Spam.is_spam r = bool_of_Z (Z.of_nat i) /\
        Spam.confidence_score r = Some p) \/
     (exists n,
        spam_predict_proba m = None /\
        spam_predict m (description request) = Ok n /\
        Spam.is_spam r = bool_of_Z n /\ Spam.confidence_score r = None)).
Proof.
  unfold detect_spam. intros H%try_except_Return.
  destruct (spam_detection_model g) as [m|]; [|done].
  destruct (too_short request); [done|].
  exists m. repeat (split; [done|]).
  destruct (spam_predict_proba m) as [proba|].
  - left. invert_bind H. injection H as <-.
    match goal with Hg : getitem _ _ = _ |- _ => apply getitem_Ok in Hg end.
    match goal with
    | H1 : argmax ?l = Ok ?i, H2 : argmax ?l = Ok ?j |- _ =>
        rewrite H1 in H2; injection H2 as <-
    end.
    eauto 12.
  - right. invert_bind H. injection H as <-. eauto 10.
Qed.

(** With both subsystems loaded and a text that passes validation, the
    combined endpoint is the two single-purpose endpoints in sequence. *)
Lemma analyze_unfold (g : globals) request :
  grievance_missing g = false -> spam_missing g = false ->
  too_short request = false ->
  analyze g request =
    (c ← classify g request; s ← detect_spam g request; mret (merge c s)).
Proof.
  intros Hg Hm Hs. unfold analyze_grievance.
  assert (models_missing g = []) as -> by by apply models_missing_nil.
  rewrite Hs.
  destruct (classify g request) as [c|[code d|msg]] eqn:Ec; simpl.
  - destruct (detect_spam g request) as [sp|[code d|msg]] eqn:Es; simpl; [done..|].
    exfalso. by eapply try_except_not_exception.
  - done.
  - exfalso. by eapply try_except_not_exception.
Qed.

Lemma analyze_Return (g : globals) request r :
  analyze g request = Return r ->
  exists c s, classify g request = Return c /\
    detect_spam g request = Return s /\ r = merge c s.
Proof.
  intros H.
  destruct (models_missing g) as [|name rest] eqn:Em.
  - apply models_missing_nil in Em as [Hg Hm].
    destruct (too_short request) eqn:Hs.
    + rewrite analyze_too_short in H; [done| |done]. by apply models_missing_nil.
    + rewrite analyze_unfold in H by done.
      apply bind_Return in H as (c & Hc & H).
      apply bind_Return in H as (sp & Hsp & H).
      injection H as <-. eauto.
  - rewrite analyze_unavailable in H; [done|]. by rewrite Em.
Qed.

(** C1 (as amended): for a text whose trimmed length is below 5, each of
    the three operations fails with InvalidInput when the models that the
    operation needs are loaded; when they are not, the operation fails
    with ServiceUnavailable, because each endpoint tests its models
    before it validates the text. *)
Theorem C1_short_text_after_availability (g : globals) request :
  (length (strip (description request)) < 5)%nat ->
  (grievance_missing g = false -> InvalidInput (classify g request)) /\
  (spam_missing g = false -> InvalidInput (detect_spam g request)) /\
  (grievance_missing g = false -> spam_missing g = false ->
     InvalidInput (analyze g request)) /\
  (grievance_missing g = true -> ServiceUnavailable (classify g request)) /\
  (spam_missing g = true -> ServiceUnavailable (detect_spam g request)) /\
  (grievance_missing g = true \/ spam_missing g = true ->
     ServiceUnavailable (analyze g request)).
Proof.
  intros Hlen. pose proof (too_short_of_length request Hlen) as Hs.
  repeat split.
  - intros Hg. eexists. by apply classify_too_short.
  - intros Hm. eexists. by apply detect_too_short.
  - intros Hg Hm. eexists. apply analyze_too_short; [|done].
    by apply models_missing_nil.
  - intros Hg. eexists. by apply classify_unavailable.
  - intros Hm. eexists. by apply detect_unavailable.
  - intros Hor. eexists. apply analyze_unavailable.
    rewrite models_missing_nil. intros [? ?]. destruct Hor; congruence.
Qed.


(** The grievance classifier: on a text that passes validation, with the
    three artifacts loaded, a classifier that has [predict_proba] yields
    the decoded arg-max index of the probability row and the probability
    at that index; one that has not yields the decoded hard prediction
    and no confidence.  Each direction is stated both ways: what a
    returned result must be, and that the result is returned when the
    collaborators return. *)
Lemma classify_dispatch (g : globals) request clf vec enc :
  grievance_classifier g = Some clf -> vectorizer g = Some vec ->
  label_encoder g = Some enc -> too_short request = false ->
  (forall proba, predict_proba clf = Some proba ->
     (forall r, classify g request = Return r ->
        exists x probs i p,
          transform vec (str_lower (description request)) = Ok x /\
          proba x = Ok probs /\ is_argmax probs i /\ probs !! i = Some p /\
          inverse_transform enc (Z.of_nat i) = Ok (Classification.grievance_category r) /\
          Classification.confidence_score r = Some p) /\
     (forall x probs i p label,
        transform vec (str_lower (description request)) = Ok x ->
        proba x = Ok probs -> is_argmax probs i -> probs !! i = Some p ->
        inverse_transform enc (Z.of_nat i) = Ok label ->
        classify g request = Return
          {| Classification.grievance_category := label;
             Classification.confidence_score := Some p |})) /\
  (predict_proba clf = None ->
     (forall r, classify g request = Return r ->
        Classification.confidence_score r = None /\
        exists x a n,
          transform vec (str_lower (description request)) = Ok x /\
          toarray x = Ok a /\ predict clf a = Ok n /\
          inverse_transform enc n = Ok (Classification.grievance_category r)) /\
     (forall x a n label,
        transform vec (str_lower (description request)) = Ok x ->
        toarray x = Ok a -> predict clf a = Ok n ->
        inverse_transform enc n = Ok label ->
        classify g request = Return
          {| Classification.grievance_category := label;
             Classification.confidence_score := None |})).
Proof.
  intros Hc Hv He Hs. split; [intros proba Hp|intros Hp]; split.
  - intros r Hr.
    destruct (classify_Return g request r Hr)
      as (clf' & vec' & enc' & x & Hc' & Hv' & He' & _ & Hx & Hcase).
    simplify_eq.
    destruct Hcase as [(pr & probs & i & p & Hpr & ? & ?%argmax_spec & ? & ? & ?)
                      |(a & n & Hnone & _)]; [|congruence].
    simplify_eq. eauto 10.
  - intros x probs i p label Hx Hprobs Hi Hpi Hl.
    unfold classify_grievance. rewrite Hc, Hv, He, Hs, Hx. simpl.
    rewrite Hp. simpl. rewrite Hprobs. simpl.
    rewrite (argmax_total _ _ Hi). simpl.
    unfold getitem. rewrite Hpi. simpl. by rewrite Hl.
  - intros r Hr.
    destruct (classify_Return g request r Hr)
      as (clf' & vec' & enc' & x & Hc' & Hv' & He' & _ & Hx & Hcase).
    simplify_eq.
    destruct Hcase as [(pr & probs & i & p & Hpr & _)
                      |(a & n & _ & ? & ? & ? & ?)]; [congruence|].
    eauto 10.
  - intros x a n label Hx Ha Hn Hl.
    unfold classify_grievance. rewrite Hc, Hv, He, Hs, Hx. simpl.
    rewrite Hp. simpl. rewrite Ha. simpl. rewrite Hn. simpl. by rewrite Hl.
Qed.

(** The spam detector: the same dispatch, where decoding a label is
    [bool]. *)
Lemma detect_dispatch (g : globals) request m :
  spam_detection_model g = Some m -> too_short request = false ->
  (forall proba, spam_predict_proba m = Some proba ->
     (forall r, detect_spam g request = Return r ->
        exists probs i p,
          proba (description request) = Ok probs /\ is_argmax probs i /\
          probs !! i = Some p /\ Spam.is_spam r = bool_of_Z (Z.of_nat i) /\
          Spam.confidence_score r = Some p) /\
     (forall probs i p,
        proba (description request) = Ok probs -> is_argmax probs i ->
        probs !! i = Some p ->
        detect_spam g request = Return
          {| Spam.is_spam := bool_of_Z (Z.of_nat i);
             Spam.confidence_score := Some p |})) /\
  (spam_predict_proba m = None ->
     (forall r, detect_spam g request = Return r ->
        Spam.confidence_score r = None /\
        exists n, spam_predict m (description request) = Ok n /\
          Spam.is_spam r = bool_of_Z n) /\
     (forall n, spam_predict m (description request) = Ok n ->
        detect_spam g request = Return
          {| Spam.is_spam := bool_of_Z n; Spam.confidence_score := None |})).
Proof.
  intros Hm Hs. split; [intros proba Hp|intros Hp]; split.
  - intros r Hr.
    destruct (detect_Return g request r Hr) as (m' & Hm' & _ & Hcase).
    simplify_eq.
    destruct Hcase as [(pr & probs & i & p & Hpr & ? & ?%argmax_spec & ? & ? & ?)
                      |(n & Hnone & _)]; [|congruence].
    simplify_eq. eauto 10.
  - intros probs i p Hprobs Hi Hpi.
    unfold detect_spam. rewrite Hm, Hs, Hp. simpl. rewrite Hprobs. simpl.
    rewrite (argmax_total _ _ Hi). simpl.
    unfold getitem. by rewrite Hpi.
  - intros r Hr.
    destruct (detect_Return g request r Hr) as (m' & Hm' & _ & Hcase).
    simplify_eq.
    destruct Hcase as [(pr & probs & i & p & Hpr & _)
                      |(n & _ & ? & ? & ?)]; [congruence|].
    eauto.
  - intros n Hn.
    unfold detect_spam. rewrite Hm, Hs, Hp. simpl. by rewrite Hn.
Qed.

(** C4: for every text that passes validation, classification dispatches
    on whether the predictor has [predict_proba].  If it has, the label
    is the decoder applied to the arg-max index of the probability row
    and the confidence is the probability at that index; if it has not,
    the label is the decoded hard prediction and the confidence is
    absent ([None], which no number equals).  The same holds for the
    spam detector with [bool] as decoder.  Each half asks only for the
    models of its own subsystem. *)
Theorem C4_dispatch_on_probability_capability (g : globals) request :
  too_short request = false ->
  (forall clf vec enc,
     grievance_classifier g = Some clf -> vectorizer g = Some vec ->
     label_encoder g = Some enc ->
     (forall proba, predict_proba clf = Some proba ->
        (forall r, classify g request = Return r ->
           exists x probs i p,
             transform vec (str_lower (description request)) = Ok x /\
             proba x = Ok probs /\ is_argmax probs i /\ probs !! i = Some p /\
             inverse_transform enc (Z.of_nat i) = Ok (Classification.grievance_category r) /\
             Classification.confidence_score r = Some p) /\
        (forall x probs i p label,
           transform vec (str_lower (description request)) = Ok x ->
           proba x = Ok probs -> is_argmax probs i -> probs !! i = Some p ->
           inverse_transform enc (Z.of_nat i) = Ok label ->
           classify g request = Return
             {| Classification.grievance_category := label;
                Classification.confidence_score := Some p |})) /\
     (predict_proba clf = None ->
        (forall r, classify g request = Return r ->
           Classification.confidence_score r = None /\
           exists x a n,
             transform vec (str_lower (description request)) = Ok x /\
             toarray x = Ok a /\ predict clf a = Ok n /\
             inverse_transform enc n = Ok (Classification.grievance_category r)) /\
        (forall x a n label,
           transform vec (str_lower (description request)) = Ok x ->
           toarray x = Ok a -> predict clf a = Ok n ->
           inverse_transform enc n = Ok label ->
           classify g request = Return
             {| Classification.grievance_category := label;
                Classification.confidence_score := None |}))) /\
  (forall m,
     spam_detection_model g = Some m ->
     (forall proba, spam_predict_proba m = Some proba ->
        (forall r, detect_spam g request = Return r ->
           exists probs i p,
             proba (description request) = Ok probs /\ is_argmax probs i /\
             probs !! i = Some p /\ Spam.is_spam r = bool_of_Z (Z.of_nat i) /\
             Spam.confidence_score r = Some p) /\
        (forall probs i p,
           proba (description request) = Ok probs -> is_argmax probs i ->
           probs !! i = Some p ->
           detect_spam g request = Return
             {| Spam.is_spam := bool_of_Z (Z.of_nat i);
                Spam.confidence_score := Some p |})) /\
     (spam_predict_proba m = None ->
        (forall r, detect_spam g request = Return r ->
           Spam.confidence_score r = None /\
           exists n, spam_predict m (description request) = Ok n /\
             Spam.is_spam r = bool_of_Z n) /\
        (forall n, spam_predict m (description request) = Ok n ->
           detect_spam g request = Return
             {| Spam.is_spam := bool_of_Z n; Spam.confidence_score := None |}))).
Proof.
  intros Hs. split.
  - intros clf vec enc Hc Hv He. by apply classify_dispatch.
  - intros m Hm. by apply detect_dispatch.
Qed.

(** C5: on a text that passes validation, with both subsystems loaded,
    [analyze] is the merge of [classifyGrievance] and [detectSpam] on the
    same text: it returns exactly when both return, its category and
    category confidence are those of the classification and its spam
    flag and spam confidence those of the detection; a failure of either
    is the failure of [analyze]. *)
Theorem C5_analyze_merges_both (g : globals) request :
  grievance_missing g = false -> spam_missing g = false ->
  too_short request = false ->
  analyze g request =
    (c ← classify g request; s ← detect_spam g request; mret (merge c s)) /\
  (forall c s, classify g request = Return c -> detect_spam g request = Return s ->
     analyze g request = Return (merge c s)) /\
  (forall r, analyze g request = Return r ->
     exists c s, classify g request = Return c /\ detect_spam g request = Return s /\
       Combined.grievance_category r = Classification.grievance_category c /\
       Combined.category_confidence r = Classification.confidence_score c /\
       Combined.is_spam r = Spam.is_spam s /\
       Combined.spam_confidence r = Spam.confidence_score s).
Proof.
  intros Hg Hm Hs. pose proof (analyze_unfold g request Hg Hm Hs) as Heq.
  split; [done|]. split.
  - intros c sp Hc Hsp. by rewrite Heq, Hc, Hsp.
  - intros r Hr. destruct (analyze_Return g request r Hr) as (c & sp & Hc & Hsp & ->).
    by exists c, sp.
Qed.

Lemma classify_confidence (g : globals) request r :
  (forall clf proba, grievance_classifier g = Some clf ->
     predict_proba clf = Some proba -> is_distribution proba) ->
  classify g request = Return r ->
  confidence_ok (Classification.confidence_score r).
Proof.
  intros Hd Hr p Hp.
  destruct (classify_Return g request r Hr)
    as (clf & vec & enc & x & Hc & _ & _ & _ & _ & Hcase).
  destruct Hcase as [(proba & probs & i & q & Hpr & Hprobs & _ & Hi & _ & Hq)
                    |(a & n & _ & _ & _ & _ & Hnone)]; [|congruence].
  assert (q = p) as -> by congruence.
  pose proof (Hd clf proba Hc Hpr x probs Hprobs) as Hall.
  rewrite Forall_lookup in Hall. exact (Hall i p Hi).
Qed.

Lemma detect_confidence (g : globals) request r :
  (forall m proba, spam_detection_model g = Some m ->
     spam_predict_proba m = Some proba -> is_distribution proba) ->
  detect_spam g request = Return r ->
  confidence_ok (Spam.confidence_score r).
Proof.
  intros Hd Hr p Hp.
  destruct (detect_Return g request r Hr) as (m & Hm & _ & Hcase).
  destruct Hcase as [(proba & probs & i & q & Hpr & Hprobs & _ & Hi & _ & Hq)
                    |(n & _ & _ & _ & Hnone)]; [|congruence].
  assert (q = p) as -> by congruence.
  pose proof (Hd m proba Hm Hpr _ probs Hprobs) as Hall.
  rewrite Forall_lookup in Hall. exact (Hall i p Hi).
Qed.

(** C8: if the probability rows of the loaded predictors have every entry
    in [0,1], then every confidence present in a classification, a spam
    verdict or a combined result lies in [0,1]. *)
Theorem C8_confidence_in_unit_interval (g : globals) request :
  (forall clf proba, grievance_classifier g = Some clf ->
     predict_proba clf = Some proba -> is_distribution proba) ->
  (forall m proba, spam_detection_model g = Some m ->
     spam_predict_proba m = Some proba -> is_distribution proba) ->
  (forall r, classify g request = Return r ->
     confidence_ok (Classification.confidence_score r)) /\
  (forall r, detect_spam g request = Return r ->
     confidence_ok (Spam.confidence_score r)) /\
  (forall r, analyze g request = Return r ->
     confidence_ok (Combined.category_confidence r) /\
     confidence_ok (Combined.spam_confidence r)).
Proof.
  intros Hdc Hds. split; [|split].
  - intros r Hr. by eapply classify_confidence.
  - intros r Hr. by eapply detect_confidence.
  - intros r Hr. destruct (analyze_Return g request r Hr) as (c & sp & Hc & Hsp & ->).
    split; simpl.
    + by eapply classify_confidence.
    + by eapply detect_confidence.
Qed.

(** C9 (as amended): grievance classification is case-insensitive on
    texts that pass validation: two texts that are equal after
    lower-casing and both pass validation get the same result, whatever
    the models are, because only the lower-cased text reaches the
    vectorizer.  Spam detection passes the text unchanged to its model:
    any two distinct texts that pass validation are told apart by some
    spam model. *)
Theorem C9_case_insensitive_on_validated_texts (g : globals) (t t' : text) :
  too_short {| description := t |} = false ->
  too_short {| description := t' |} = false ->
  str_lower t = str_lower t' ->
  classify g {| description := t |} = classify g {| description := t' |} /\
  (t <> t' ->
   exists m : SpamModel, forall g' : globals,
     spam_detection_model g' = Some m ->
     detect_spam g' {| description := t |} <>
     detect_spam g' {| description := t' |}).
Proof.
  intros Hs Hs' Hl. split.
  - unfold classify_grievance.
    destruct (grievance_classifier g), (vectorizer g), (label_encoder g); try done.
    rewrite Hs, Hs'. simpl. by rewrite Hl.
  - intros Hne.
    exists {| spam_predict_proba := None;
              spam_predict := fun s => Ok (if decide (s = t) then 1 else 0)%Z |}.
    intros g' Hm. unfold detect_spam. rewrite Hm, Hs, Hs'. simpl.
    rewrite decide_True by done. rewrite decide_False by done. discriminate.
Qed.

End Endpoints.

Section Loading.

Context {features dense : Type}.
Variable toarray : features -> outcome dense.
Variable str_lower : text -> text.
Variable import_xgboost : outcome unit.
Variable Booster : Classifier features dense.

Local Abbreviation classify := (classify_grievance toarray str_lower).
Local Abbreviation startup := (UnifiedApi.startup import_xgboost Booster).
Local Abbreviation load_models := (UnifiedApi.load_models import_xgboost Booster).
Local Abbreviation globals := (UnifiedApi.globals features dense).

Ltac unavailable :=
  eexists; first [apply classify_unavailable | apply detect_unavailable];
  reflexivity.

Ltac stage f :=
  destruct f as [| |[|]]; simpl;
  try solve [repeat split; intros; simplify_eq; try done; try unavailable].

(** What [load_models] leaves, stage by stage, from any globals: a stage
    that loads assigns its variable, a stage that fails ends the run
    with [False] and leaves its variable and those of the later stages
    as they were (the classifier stage may leave the empty booster). *)
Lemma load_models_stages (d : disk features dense) (g : globals) :
  (classifier_loaded import_xgboost d = None ->
     (load_models d g).2 = false /\
     grievance_classifier (load_models d g).1 =
       (if booster_left import_xgboost d then Some Booster
        else grievance_classifier g) /\
     vectorizer (load_models d g).1 = vectorizer g /\
     label_encoder (load_models d g).1 = label_encoder g /\
     spam_detection_model (load_models d g).1 = spam_detection_model g) /\
  (forall c, classifier_loaded import_xgboost d = Some c ->
     grievance_classifier (load_models d g).1 = c /\
     (loaded (vectorizer_pkl d) = None ->
        (load_models d g).2 = false /\
        vectorizer (load_models d g).1 = vectorizer g /\
        label_encoder (load_models d g).1 = label_encoder g /\
        spam_detection_model (load_models d g).1 = spam_detection_model g) /\
     (forall v, loaded (vectorizer_pkl d) = Some v ->
        vectorizer (load_models d g).1 = v /\
        (loaded (label_encoder_pkl d) = None ->
           (load_models d g).2 = false /\
           label_encoder (load_models d g).1 = label_encoder g /\
           spam_detection_model (load_models d g).1 = spam_detection_model g) /\
        (forall e, loaded (label_encoder_pkl d) = Some e ->
           label_encoder (load_models d g).1 = e /\
           (loaded (model_pkl d) = None ->
              (load_models d g).2 = false /\
              spam_detection_model (load_models d g).1 = spam_detection_model g) /\
           (forall m, loaded (model_pkl d) = Some m ->
              (load_models d g).2 = true /\
              spam_detection_model (load_models d g).1 = m)))).
Proof.
  destruct d as [pkl json vec enc model].
  unfold UnifiedApi.load_models, UnifiedApi.load_models_body,
    classifier_loaded, booster_left.
  destruct pkl as [| |[|]];
    [destruct json, import_xgboost as [[]|?]|..]; simpl;
    try solve [repeat split; intros; simplify_eq; done];
    stage vec; stage enc; stage model.
Qed.


End Loading.


(** *** Concrete runs *)

Section Runs.
Import Sample.

Local Abbreviation classify := (classify_grievance dense_of lower).
Local Abbreviation analyze := (analyze_grievance dense_of lower).
Local Abbreviation startup := (UnifiedApi.startup (Ok tt) empty_booster).

(** With no model loaded, the two-character text "hi" is answered with
    503 by all three endpoints, not with 400. *)
Lemma C1_counterexample :
  (length (strip (description hi)) < 5)%nat /\
  ~ InvalidInput (classify initial hi) /\
  ~ InvalidInput (detect_spam (@initial text text) hi) /\
  ~ InvalidInput (analyze initial hi).
Proof.
  split; [vm_compute; lia|].
  repeat split; intros [detail H]; vm_compute in H; discriminate H.
Qed.

Lemma C1_witness :
  (length (strip (description hi)) < 5)%nat /\
  InvalidInput (classify all_loaded hi) /\
  InvalidInput (analyze all_loaded hi) /\
  ServiceUnavailable (classify initial hi).
Proof.
  assert (Hlen : (length (strip (description hi)) < 5)%nat) by (vm_compute; lia).
  split; [exact Hlen|].
  destruct (C1_short_text_after_availability dense_of lower all_loaded hi Hlen)
    as (Hc & _ & Ha & _).
  destruct (C1_short_text_after_availability dense_of lower initial hi Hlen)
    as (_ & _ & _ & Hu & _).
  split; [apply Hc; reflexivity|].
  split; [apply Ha; reflexivity|apply Hu; reflexivity].
Defined.




Lemma C4_witness :
  too_short pothole = false /\
  classify all_loaded pothole = Return
    {| Classification.grievance_category := str "roads";
       Classification.confidence_score := Some (7 # 10)%Q |} /\
  classify hard_loaded pothole = Return
    {| Classification.grievance_category := str "electricity";
       Classification.confidence_score := None |}.
Proof.
  split; [reflexivity|].
  destruct (C4_dispatch_on_probability_capability dense_of lower all_loaded
              pothole eq_refl) as [Hall _].
  destruct (Hall forest tfidf encoder eq_refl eq_refl eq_refl) as [Hp _].
  destruct (C4_dispatch_on_probability_capability dense_of lower hard_loaded
              pothole eq_refl) as [Hhard _].
  destruct (Hhard booster tfidf encoder eq_refl eq_refl eq_refl) as [_ Hh].
  split.
  - destruct (Hp _ eq_refl) as [_ Htotal].
    apply (Htotal (lower (description pothole)) [1 # 10; 7 # 10; 2 # 10]%Q 1%nat);
      try reflexivity.
    apply argmax_spec. reflexivity.
  - destruct (Hh eq_refl) as [_ Htotal].
    apply (Htotal (lower (description pothole)) (lower (description pothole)) 2%Z);
      reflexivity.
Defined.

Lemma C5_witness :
  grievance_missing all_loaded = false /\ spam_missing all_loaded = false /\
  too_short pothole = false /\
  analyze all_loaded pothole = Return
    {| Combined.grievance_category := str "roads"; Combined.is_spam := true;
       Combined.category_confidence := Some (7 # 10)%Q;
       Combined.spam_confidence := Some (97 # 100)%Q |}.
Proof.
  repeat (split; [reflexivity|]).
  destruct (C5_analyze_merges_both dense_of lower all_loaded pothole
              eq_refl eq_refl eq_refl) as (_ & Hmerge & _).
  apply (Hmerge
    {| Classification.grievance_category := str "roads";
       Classification.confidence_score := Some (7 # 10)%Q |}
    {| Spam.is_spam := true; Spam.confidence_score := Some (97 # 100)%Q |});
    reflexivity.
Defined.

Lemma forest_is_distribution proba :
  predict_proba forest = Some proba -> is_distribution proba.
Proof.
  intros [= <-] x probs [= <-].
  repeat constructor; vm_compute; discriminate.
Qed.

Lemma spam_proba_is_distribution proba :
  spam_predict_proba spam_proba = Some proba -> is_distribution proba.
Proof.
  intros [= <-] x probs [= <-].
  repeat constructor; vm_compute; discriminate.
Qed.

Lemma C8_witness :
  (forall clf proba, grievance_classifier all_loaded = Some clf ->
     predict_proba clf = Some proba -> is_distribution proba) /\
  (forall m proba, spam_detection_model all_loaded = Some m ->
     spam_predict_proba m = Some proba -> is_distribution proba) /\
  confidence_ok (Some (7 # 10)%Q).
Proof.
  assert (Hc : forall clf proba, grievance_classifier all_loaded = Some clf ->
     predict_proba clf = Some proba -> is_distribution proba).
  { intros clf proba [= <-]. apply forest_is_distribution. }
  assert (Hs : forall m proba, spam_detection_model all_loaded = Some m ->
     spam_predict_proba m = Some proba -> is_distribution proba).
  { intros m proba [= <-]. apply spam_proba_is_distribution. }
  split; [exact Hc|]. split; [exact Hs|].
  destruct (C8_confidence_in_unit_interval dense_of lower all_loaded pothole Hc Hs)
    as (Hcls & _).
  apply (Hcls {| Classification.grievance_category := str "roads";
                 Classification.confidence_score := Some (7 # 10)%Q |}).
  reflexivity.
Defined.

(** The text U+0069 U+0307 "abc" has five characters and passes
    validation; its casing variant U+0130 "abc" has four and does not.
    Both have the same lower case, yet the first is classified and the
    second is rejected. *)
Lemma C9_counterexample :
  lower dotted_small = lower dotted_capital /\
  too_short {| description := dotted_small |} = false /\
  classify all_loaded {| description := dotted_small |} = Return
    {| Classification.grievance_category := str "roads";
       Classification.confidence_score := Some (7 # 10)%Q |} /\
  InvalidInput (classify all_loaded {| description := dotted_capital |}) /\
  classify all_loaded {| description := dotted_small |} <>
  classify all_loaded {| description := dotted_capital |}.
Proof.
  split; [reflexivity|]. split; [reflexivity|]. split; [reflexivity|].
  split; [by eexists|]. vm_compute. discriminate.
Qed.

Lemma C9_witness :
  too_short pothole = false /\
  too_short {| description := str "LARGE POTHOLE on the Main Road" |} = false /\
  lower (description pothole) = lower (str "LARGE POTHOLE on the Main Road") /\
  classify all_loaded pothole =
  classify all_loaded {| description := str "LARGE POTHOLE on the Main Road" |}.
Proof.
  repeat (split; [reflexivity|]).
  apply (C9_case_insensitive_on_validated_texts dense_of lower all_loaded
           (description pothole) (str "LARGE POTHOLE on the Main Road")
           eq_refl eq_refl eq_refl).
Defined.

End Runs.

End UnifiedApiSpec.

(** ** Properties of scripts/main.py *)

Module MainSpec.
Import Main.

(** *** Session identifiers *)

Lemma hex_length width n : length (hex width n) = width.
Proof. induction width as [|w IH]; simpl; [done|by rewrite IH]. Qed.

Lemma uuid_str_length n : length (uuid_str n) = 36%nat.
Proof.
  unfold uuid_str.
  rewrite !length_app, !length_take, !length_drop, !hex_length. reflexivity.
Qed.

Lemma below_pow2 (x n : N) :
  (forall i, (n <= i)%N -> N.testbit x i = false) -> (x < 2 ^ n)%N.
Proof.
  intros H. destruct (N.eq_dec x 0%N) as [->|Hx].
  - apply N.neq_0_lt_0. by apply N.pow_nonzero.
  - apply N.log2_lt_pow2; [lia|].
    destruct (N.lt_ge_cases (N.log2 x) n) as [|Hge]; [done|].
    specialize (H _ Hge). rewrite N.bit_log2 in H by done. discriminate.
Qed.

Lemma shiftl_high (c k i : N) :
  (N.log2 c + k < i)%N -> N.testbit (N.shiftl c k) i = false.
Proof.
  intros H. rewrite N.shiftl_spec_high' by lia.
  apply N.bits_above_log2. lia.
Qed.

(** A UUID is a 128-bit number. *)
Lemma uuid4_128_bits r : (uuid4 r < 2 ^ 128)%N.
Proof.
  apply below_pow2. intros i Hi. unfold uuid4.
  repeat first [rewrite N.lor_spec | rewrite N.ldiff_spec | rewrite N.land_spec].
  rewrite N.ones_spec_high by done.
  rewrite !shiftl_high by (vm_compute N.log2; lia).
  by rewrite !andb_false_r.
Qed.

(** The version field, bits 76 to 79, is 4. *)
Lemma uuid4_version r : N.land (N.shiftr (uuid4 r) 76) 15 = 4%N.
Proof.
  apply N.bits_inj. intros i. unfold uuid4.
  rewrite N.land_spec, N.shiftr_spec', N.lor_spec, N.ldiff_spec.
  destruct (N.lt_ge_cases i 4) as [Hi|Hi].
  - assert (i = 0 \/ i = 1 \/ i = 2 \/ i = 3)%N as [->|[->|[->| ->]]] by lia;
      match goal with
      | |- (?a && negb ?b || ?c) && ?d = ?e =>
          let b' := eval vm_compute in b in
          let c' := eval vm_compute in c in
          let d' := eval vm_compute in d in
          let e' := eval vm_compute in e in
          change ((a && negb b' || c') && d' = e')
      end; simpl; by rewrite ?andb_false_r.
  - rewrite (N.bits_above_log2 15 i) by (vm_compute N.log2; lia).
    rewrite (N.bits_above_log2 4 i) by (vm_compute N.log2; lia).
    by rewrite andb_false_r.
Qed.

(** *** The endpoints *)

Section Server.

Context {page : Type}.
Variable PdfReader : list Byte.byte -> outcome (list page).
Variable extract_text : page -> outcome text.
Variable environ_GEMINI_API_KEY : option text.
Variable generate_content : text -> outcome text.
Variable model_predict : text -> outcome Z.

Local Abbreviation init_rag := (Main.init_rag PdfReader extract_text).
Local Abbreviation ask_question :=
  (Main.ask_question environ_GEMINI_API_KEY generate_content).
Local Abbreviation handle :=
  (Main.handle PdfReader extract_text environ_GEMINI_API_KEY generate_content
     model_predict).
Local Abbreviation run :=
  (Main.run PdfReader extract_text environ_GEMINI_API_KEY generate_content
     model_predict).
Local Abbreviation fresh_ids :=
  (Main.fresh_ids PdfReader extract_text environ_GEMINI_API_KEY generate_content
     model_predict).
Local Abbreviation extract_pages := (Main.extract_pages extract_text).
Local Abbreviation API_KEY := (GEMINI_API_KEY environ_GEMINI_API_KEY).

(** The text of a document extends the accumulator by at least a newline
    for every page. *)
Lemma extract_pages_Ok pages : forall acc txt,
  extract_pages pages acc = Ok txt ->
  exists suffix, txt = acc ++ suffix /\ (pages = [] <-> suffix = []).
Proof.
  induction pages as [|pg pages IH]; intros acc txt H; simpl in H.
  - injection H as <-. exists []. by rewrite app_nil_r.
  - destruct (extract_text pg) as [t|msg]; [|discriminate]. simpl in H.
    apply IH in H as (suffix & -> & _).
    exists (t ++ str (String "010" EmptyString) ++ suffix).
    rewrite <- !app_assoc. split; [done|].
    split; [done|]. intros H. by destruct t.
Qed.

(** What a successful upload did. *)
Lemma init_rag_Return (pdf_files : UploadFile) (urandom16 : N)
    (pdf_sessions s' : gmap text text) resp :
  init_rag pdf_files urandom16 pdf_sessions = (s', Return resp) ->
  exists pdf_bytes pages text_content,
    read pdf_files = Ok pdf_bytes /\ PdfReader pdf_bytes = Ok pages /\
    extract_pages pages [] = Ok text_content /\
    s' = <[uuid_str (uuid4 urandom16) := text_content]> pdf_sessions /\
    resp = {| Upload.message := str "PDF processed successfully";
              Upload.pages := length pages;
              Upload.session_id := uuid_str (uuid4 urandom16) |}.
Proof.
  unfold Main.init_rag.
  destruct (negb (endswith (filename pdf_files) (str ".pdf"))); [intros [=]|].
  destruct (read pdf_files) as [pdf_bytes|msg] eqn:Eb; simpl; [|intros [=]].
  destruct (PdfReader pdf_bytes) as [pages|msg] eqn:Ep; simpl; [|intros [=]].
  destruct (extract_pages pages []) as [text_content|msg] eqn:Et; simpl;
    [|intros [=]].
  intros [= <- <-]. by exists pdf_bytes, pages, text_content.
Qed.

(** An upload that fails leaves the session map as it was. *)
Lemma init_rag_Raise (pdf_files : UploadFile) (urandom16 : N)
    (pdf_sessions s' : gmap text text) e :
  init_rag pdf_files urandom16 pdf_sessions = (s', Raise e) -> s' = pdf_sessions.
Proof.
  unfold Main.init_rag.
  destruct (negb (endswith (filename pdf_files) (str ".pdf"))); [by intros [= <-]|].
  destruct (_ ≫= _) as [[pages text_content]|msg]; [intros [=]|by intros [= <-]].
Qed.

(** An upload writes at most the entry of the identifier it draws. *)
Lemma init_rag_other (pdf_files : UploadFile) (urandom16 : N)
    (pdf_sessions : gmap text text) (id : text) :
  id <> uuid_str (uuid4 urandom16) ->
  (init_rag pdf_files urandom16 pdf_sessions).1 !! id = pdf_sessions !! id.
Proof.
  intros Hne.
  destruct (init_rag pdf_files urandom16 pdf_sessions) as [s' [resp|e]] eqn:E; simpl.
  - apply init_rag_Return in E as (? & ? & txt & _ & _ & _ & -> & _).
    by rewrite lookup_insert_ne.
  - by apply init_rag_Raise in E as ->.
Qed.

(** Only an upload changes the session map, and only at its identifier. *)
Lemma handle_other (rq : request) (pdf_sessions : gmap text text) (id : text) :
  match rq with
  | POST_init_rag _ rnd => id <> uuid_str (uuid4 rnd)
  | _ => True
  end ->
  (handle rq pdf_sessions).1 !! id = pdf_sessions !! id.
Proof.
  destruct rq as [r|f rnd|r]; simpl; [done| |done].
  intros Hne. pose proof (init_rag_other f rnd pdf_sessions id Hne) as H.
  by destruct (init_rag f rnd pdf_sessions).
Qed.

(** A session, once stored, keeps its text for the rest of the run, as
    long as the identifiers drawn are new. *)
Lemma run_preserves rqs : forall (pdf_sessions : gmap text text) id txt,
  fresh_ids rqs pdf_sessions -> pdf_sessions !! id = Some txt ->
  run rqs pdf_sessions !! id = Some txt.
Proof.
  induction rqs as [|rq rqs IH]; intros s id txt Hfresh Hid; simpl; [done|].
  destruct Hfresh as [Hrq Hrest]. apply IH; [done|].
  rewrite handle_other; [done|].
  destruct rq; try done. intros ->. congruence.
Qed.

(** Whatever a run stores under an identifier was there at the start or
    is the text of some upload of the run that drew that identifier. *)
Lemma run_origin rqs : forall (pdf_sessions : gmap text text) id txt,
  run rqs pdf_sessions !! id = Some txt ->
  pdf_sessions !! id = Some txt \/
  exists pdf_files rnd pdf_bytes pages,
    POST_init_rag pdf_files rnd ∈ rqs /\ id = uuid_str (uuid4 rnd) /\
    read pdf_files = Ok pdf_bytes /\ PdfReader pdf_bytes = Ok pages /\
    extract_pages pages [] = Ok txt.
Proof.
  induction rqs as [|rq rqs IH]; intros s id txt H; simpl in H; [by left|].
  apply IH in H as [H|(f & rnd & b & pages & Hin & Hrest)].
  - destruct rq as [r|f rnd|r]; simpl in H; [by left| |by left].
    destruct (init_rag f rnd s) as [s' [resp|e]] eqn:E; simpl in H.
    + apply init_rag_Return in E as (b & pages & t & Hb & Hp & Ht & -> & _).
      destruct (decide (uuid_str (uuid4 rnd) = id)) as [<-|Hne].
      * rewrite lookup_insert_eq in H. injection H as <-.
        right. exists f, rnd, b, pages. split; [left|done].
      * rewrite lookup_insert_ne in H by done. by left.
    + apply init_rag_Raise in E as ->. by left.
  - right. exists f, rnd, b, pages. split; [by right|done].
Qed.

Lemma ask_question_None (request : QuestionRequest)
    (pdf_sessions : gmap text text) :
  pdf_sessions !! session_id request = None ->
  SessionNotFound (ask_question request pdf_sessions).
Proof. intros H. unfold SessionNotFound, Main.ask_question. by rewrite H. Qed.

Lemma ask_question_Some (request : QuestionRequest)
    (pdf_sessions : gmap text text) pdf_content :
  pdf_sessions !! session_id request = Some pdf_content ->
  ask_question request pdf_sessions =
    if bool_decide (pdf_content = []) then
      Raise (HTTPException 400 (str "No PDF content found for this session."))
    else if bool_decide (API_KEY = str "your_api_key_here") then
      Raise (HTTPException 503 (str
        "Gemini API key not configured. Please set GEMINI_API_KEY environment variable."))
    else
      match generate_content (prompt pdf_content (query request)) with
      | Ok response_text => Return {| answer := response_text |}
      | Failed msg =>
          Raise (HTTPException 500 (str "Error generating answer: " ++ msg))
      end.
Proof. intros H. unfold Main.ask_question. by rewrite H. Qed.

(** The empty-document branch is taken exactly on a stored empty text. *)
Lemma ask_question_EmptyDocument (request : QuestionRequest)
    (pdf_sessions : gmap text text) :
  EmptyDocument (ask_question request pdf_sessions) <->
  pdf_sessions !! session_id request = Some [].
Proof.
  unfold EmptyDocument. split.
  - destruct (pdf_sessions !! session_id request) as [c|] eqn:E.
    + rewrite (ask_question_Some _ _ _ E).
      case_bool_decide; [by subst|].
      case_bool_decide; [discriminate|].
      destruct (generate_content _); discriminate.
    + unfold Main.ask_question. rewrite E. intros H.
      vm_compute in H. discriminate H.
  - intros E. rewrite (ask_question_Some _ _ _ E). by rewrite bool_decide_true.
Qed.

Lemma prompt_take pdf_content query :
  prompt (take (N.to_nat 10000) pdf_content) query = prompt pdf_content query.
Proof. unfold prompt. by rewrite take_take, Nat.min_id. Qed.

(** An identifier of thirteen characters is not the string of a UUID. *)
Lemma not_a_real_id rnd : str "not-a-real-id" <> uuid_str (uuid4 rnd).
Proof.
  intros H. apply (f_equal length) in H. rewrite uuid_str_length in H.
  vm_compute in H. discriminate H.
Qed.

(** C6: [askAboutDocument] checks in this order.  An identifier that is
    not in the session map fails with SessionNotFound; so does, after
    any sequence of requests, an identifier that no upload of the
    sequence drew, and so does "not-a-real-id", which no upload can
    draw.  Otherwise an empty stored text fails with
    EmptyDocument; otherwise a missing credential fails with
    BackendNotConfigured; otherwise the backend is called on a prompt
    that embeds the first 10000 characters of the stored text and nothing
    else of it, its answer is returned, and its failure becomes
    GenerationFailed with the backend's message. *)
Theorem C6_ask_question_checks_in_order (request : QuestionRequest)
    (pdf_sessions : gmap text text) :
  (pdf_sessions !! session_id request = None ->
     SessionNotFound (ask_question request pdf_sessions)) /\
  (forall rqs q id,
     (forall f rnd, POST_init_rag f rnd ∈ rqs -> id <> uuid_str (uuid4 rnd)) ->
     SessionNotFound
       (ask_question {| query := q; session_id := id |} (run rqs ∅))) /\
  (forall rqs q,
     SessionNotFound
       (ask_question {| query := q; session_id := str "not-a-real-id" |}
          (run rqs ∅))) /\
  (forall pdf_content,
     pdf_sessions !! session_id request = Some pdf_content ->
     (pdf_content = [] -> EmptyDocument (ask_question request pdf_sessions)) /\
     (pdf_content <> [] ->
        (environ_GEMINI_API_KEY = None ->
           BackendNotConfigured (ask_question request pdf_sessions)) /\
        (API_KEY = str "your_api_key_here" ->
           BackendNotConfigured (ask_question request pdf_sessions)) /\
        (API_KEY <> str "your_api_key_here" ->
           (forall a,
              generate_content
                (prompt (take (N.to_nat 10000) pdf_content) (query request)) = Ok a ->
              ask_question request pdf_sessions = Return {| answer := a |}) /\
           (forall msg,
              generate_content
                (prompt (take (N.to_nat 10000) pdf_content) (query request))
                = Failed msg ->
              GenerationFailed (ask_question request pdf_sessions) msg)))) /\
  (forall c c' q,
     take (N.to_nat 10000) c = take (N.to_nat 10000) c' ->
     prompt c q = prompt c' q) /\
  (forall c q, exists before after,
     prompt c q = before ++ take (N.to_nat 10000) c ++ after).
Proof.
  split; [apply ask_question_None|]. split; [|split; [|split; [|split]]].
  - intros rqs q id Hnever. apply ask_question_None. simpl.
    destruct (run rqs ∅ !! id) as [txt|] eqn:E; [|done].
    apply run_origin in E as [E|(f & rnd & b & pages & Hin & Hid & _)].
    + by rewrite lookup_empty in E.
    + by apply Hnever in Hin.
  - intros rqs q. apply ask_question_None. simpl.
    destruct (run rqs ∅ !! str "not-a-real-id") as [txt|] eqn:E; [|done].
    apply run_origin in E as [E|(f & rnd & b & pages & _ & Hid & _)].
    + by rewrite lookup_empty in E.
    + by apply not_a_real_id in Hid.
  - intros c Hc. rewrite (ask_question_Some _ _ _ Hc). split.
    + intros ->. by rewrite bool_decide_true.
    + intros Hne. rewrite bool_decide_false by done. split; [|split].
      * intros Henv. unfold BackendNotConfigured, GEMINI_API_KEY, getenv.
        rewrite Henv. by rewrite bool_decide_true.
      * intros Hkey. by rewrite bool_decide_true.
      * intros Hkey. rewrite bool_decide_false by done.
        rewrite prompt_take. split.
        -- by intros a ->.
        -- by intros msg ->.
  - intros c c' q Heq. by rewrite <- (prompt_take c), <- (prompt_take c'), Heq.
  - intros c q. unfold prompt. eexists _, _. reflexivity.
Qed.

(** C10: the text stored for a document is empty exactly when the
    document has no page, since every page adds at least a newline.  So
    a question on a session made from a document with a page never fails
    with EmptyDocument, neither right after the upload nor after further
    requests; a session made from a document without pages fails with
    EmptyDocument; and whenever a run of the server from its start
    answers EmptyDocument, the session comes from an upload whose
    document had no page. *)
Theorem C10_empty_text_only_without_pages (pdf_files : UploadFile)
    (urandom16 : N) (pdf_sessions after : gmap text text) (resp : Upload.t) :
  init_rag pdf_files urandom16 pdf_sessions = (after, Return resp) ->
  (exists txt, after !! Upload.session_id resp = Some txt /\
     (txt = [] <-> Upload.pages resp = 0%nat)) /\
  ((1 <= Upload.pages resp)%nat ->
   forall q,
     ~ EmptyDocument
         (ask_question {| query := q; session_id := Upload.session_id resp |} after) /\
     forall rqs, fresh_ids rqs after ->
       ~ EmptyDocument
           (ask_question {| query := q; session_id := Upload.session_id resp |}
              (run rqs after))) /\
  (Upload.pages resp = 0%nat ->
   forall q,
     EmptyDocument
       (ask_question {| query := q; session_id := Upload.session_id resp |} after)) /\
  (forall rqs request,
     EmptyDocument (ask_question request (run rqs ∅)) ->
     exists f rnd pdf_bytes,
       POST_init_rag f rnd ∈ rqs /\ session_id request = uuid_str (uuid4 rnd) /\
       read f = Ok pdf_bytes /\ PdfReader pdf_bytes = Ok []).
Proof.
  intros E.
  apply init_rag_Return in E as (b & pages & txt & _ & _ & Ht & -> & ->).
  simpl.
  apply extract_pages_Ok in Ht as (suffix & -> & Hiff). simpl.
  assert (Hlen : suffix = [] <-> length pages = 0%nat).
  { rewrite <- Hiff. split; [by intros ->|]. by destruct pages. }
  assert (Hlook : (<[uuid_str (uuid4 urandom16) := suffix]> pdf_sessions)
                    !! uuid_str (uuid4 urandom16) = Some suffix)
    by apply lookup_insert_eq.
  split; [by exists suffix|]. split; [|split].
  - intros Hpages q.
    assert (Hne : suffix <> []) by (rewrite Hlen; lia).
    split.
    + rewrite ask_question_EmptyDocument. simpl. rewrite Hlook. congruence.
    + intros rqs Hfresh. rewrite ask_question_EmptyDocument. simpl.
      rewrite (run_preserves rqs _ _ suffix Hfresh Hlook). congruence.
  - intros Hpages q. apply ask_question_EmptyDocument. simpl.
    rewrite Hlook. f_equal. by apply Hlen.
  - intros rqs request Hempty. apply ask_question_EmptyDocument in Hempty.
    apply run_origin in Hempty as [Hempty|(f & rnd & bts & pgs & Hin & Hid & Hb & Hp & Hx)].
    + by rewrite lookup_empty in Hempty.
    + exists f, rnd, bts. repeat (split; [done|]).
      apply extract_pages_Ok in Hx as (sfx & Hs & Hnil).
      assert (pgs = []) as -> by (apply Hnil; by destruct sfx).
      done.
Qed.

End Server.

(** *** Concrete runs *)

Section Runs.
Import Sample.

Local Abbreviation init_rag := (Main.init_rag stub_reader stub_extract).
Local Abbreviation ask_question := (Main.ask_question api_key stub_backend).

Lemma C6_witness :
  (∅ : gmap text text) !! session_id unknown_session = None /\
  SessionNotFound (ask_question unknown_session ∅) /\
  one_session !! session_id refund_question = Some (str "Refund policy: 30 days.") /\
  ask_question refund_question one_session = Return {| answer := str "30 days" |} /\
  GenerationFailed
    (Main.ask_question api_key failing_backend refund_question one_session)
    (str "429 Resource has been exhausted").
Proof.
  assert (Hnone : (∅ : gmap text text) !! session_id unknown_session = None)
    by apply lookup_empty.
  assert (Hsome : one_session !! session_id refund_question
                  = Some (str "Refund policy: 30 days."))
    by apply lookup_singleton_eq.
  assert (Hne : str "Refund policy: 30 days." <> []) by (vm_compute; discriminate).
  assert (Hkey : GEMINI_API_KEY api_key <> str "your_api_key_here")
    by (vm_compute; discriminate).
  split; [exact Hnone|]. split.
  { destruct (C6_ask_question_checks_in_order stub_reader stub_extract api_key
                stub_backend stub_model unknown_session ∅) as (H & _).
    exact (H Hnone). }
  split; [exact Hsome|]. split.
  - destruct (C6_ask_question_checks_in_order stub_reader stub_extract api_key
                stub_backend stub_model refund_question one_session)
      as (_ & _ & _ & H & _).
    destruct (H _ Hsome) as (_ & H').
    destruct (H' Hne) as (_ & _ & H'').
    destruct (H'' Hkey) as (Hok & _). apply Hok. reflexivity.
  - destruct (C6_ask_question_checks_in_order stub_reader stub_extract api_key
                failing_backend stub_model refund_question one_session)
      as (_ & _ & _ & H & _).
    destruct (H _ Hsome) as (_ & H').
    destruct (H' Hne) as (_ & _ & H'').
    destruct (H'' Hkey) as (_ & Hfail). apply Hfail. reflexivity.
Defined.

Lemma three_pages_upload :
  init_rag three_pages 0%N ∅ =
    ((init_rag three_pages 0%N ∅).1, Return three_pages_response).
Proof. reflexivity. Qed.

Lemma C10_witness :
  init_rag three_pages 0%N ∅ =
    ((init_rag three_pages 0%N ∅).1, Return three_pages_response) /\
  (1 <= Upload.pages three_pages_response)%nat /\
  ~ EmptyDocument
      (ask_question
         {| query := str "What is the refund window?";
            session_id := Upload.session_id three_pages_response |}
         (init_rag three_pages 0%N ∅).1).
Proof.
  assert (Hpages : (1 <= Upload.pages three_pages_response)%nat) by (simpl; lia).
  split; [exact three_pages_upload|]. split; [exact Hpages|].
  destruct (C10_empty_text_only_without_pages stub_reader stub_extract api_key
              stub_backend stub_model three_pages 0%N ∅ _ _ three_pages_upload)
    as (_ & H & _).
  destruct (H Hpages (str "What is the refund window?")) as (Hnow & _).
  exact Hnow.
Defined.

End Runs.

End MainSpec.

(** ** Further properties of scripts/unified_api.py *)

Module UnifiedApiMore.
Import UnifiedApi UnifiedApiSpec.

(** *** Validation and whitespace *)

Lemma lstrip_spaces ws s : spaces ws -> lstrip (ws ++ s) = lstrip s.
Proof.
  induction 1 as [|c ws Hc _ IH]; simpl; [done|]. by rewrite Hc.
Qed.

Lemma lstrip_nil_spaces s : lstrip s = [] <-> spaces s.
Proof.
  induction s as [|c s IH]; simpl.
  - split; [constructor|done].
  - destruct (isspace c) eqn:E.
    + rewrite IH. split; [by constructor|by inversion 1].
    + split; [done|]. inversion 1; congruence.
Qed.

Lemma lstrip_app s t : lstrip s <> [] -> lstrip (s ++ t) = lstrip s ++ t.
Proof.
  induction s as [|c s IH]; simpl; [done|].
  destruct (isspace c); [done|done].
Qed.

Lemma rstrip_spaces s ws : spaces ws -> rstrip (s ++ ws) = rstrip s.
Proof.
  intros H. unfold rstrip. rewrite rev_app_distr.
  rewrite lstrip_spaces; [done|]. by apply Forall_rev.
Qed.

Lemma strip_padding ws d ws' :
  spaces ws -> spaces ws' -> strip (ws ++ d ++ ws') = strip d.
Proof.
  intros Hws Hws'. unfold strip. rewrite lstrip_spaces by done.
  destruct (lstrip d) as [|c r] eqn:E.
  - apply lstrip_nil_spaces in E.
    assert (lstrip (d ++ ws') = []) as ->; [|done].
    apply lstrip_nil_spaces. by apply Forall_app.
  - rewrite lstrip_app by congruence. rewrite E. by apply rstrip_spaces.
Qed.

Lemma lstrip_length s : (length (lstrip s) <= length s)%nat.
Proof.
  induction s as [|c s IH]; simpl; [done|].
  destruct (isspace c); simpl; lia.
Qed.

Lemma strip_length s : (length (strip s) <= length s)%nat.
Proof.
  unfold strip, rstrip. rewrite length_rev.
  etrans; [apply lstrip_length|]. rewrite length_rev. apply lstrip_length.
Qed.

(** *** What the endpoints answer *)

Section Endpoints.

Context {features dense : Type}.
Variable toarray : features -> outcome dense.
Variable str_lower : text -> text.

Local Abbreviation classify := (classify_grievance toarray str_lower).
Local Abbreviation analyze := (analyze_grievance toarray str_lower).
Local Abbreviation globals := (UnifiedApi.globals features dense).

Lemma calls_only_call {A} (o : outcome A) : calls_only (call o).
Proof. by destruct o. Qed.

Lemma calls_only_ret {A} (a : A) : calls_only (mret a).
Proof. done. Qed.

Lemma calls_only_bind {A B} (m : py A) (k : A -> py B) :
  calls_only m -> (forall a, calls_only (k a)) -> calls_only (m ≫= k).
Proof.
  intros Hm Hk. destruct m as [a|e]; simpl; [apply Hk|].
  intros c d [= ->]. by eapply Hm.
Qed.

Lemma try_except_calls_only {A} (body : py A) (prefix : string) :
  calls_only body ->
  (exists a, try_except body (str prefix) = Return a) \/
  internal_error (try_except body (str prefix)) prefix.
Proof.
  intros H. destruct body as [a|[c d|msg]]; simpl.
  - left. by exists a.
  - by destruct (H c d).
  - right. by exists msg.
Qed.

Ltac calls_only :=
  repeat first
    [ apply calls_only_ret
    | apply calls_only_call
    | apply calls_only_bind; [|intros ?] ].

Lemma classify_loaded (g : globals) request :
  grievance_missing g = false -> too_short request = false ->
  (exists r, classify g request = Return r) \/
  internal_error (classify g request) "Classification error: ".
Proof.
  intros Hg Hs.
  destruct (grievance_missing_false g Hg) as (clf & vec & enc & H1 & H2 & H3).
  unfold classify_grievance. rewrite H1, H2, H3, Hs.
  apply try_except_calls_only.
  apply calls_only_bind; [apply calls_only_call|intros x].
  destruct (predict_proba clf); calls_only.
Qed.

Lemma detect_loaded (g : globals) request :
  spam_missing g = false -> too_short request = false ->
  (exists r, detect_spam g request = Return r) \/
  internal_error (detect_spam g request) "Spam detection error: ".
Proof.
  intros Hg Hs. destruct (spam_missing_false g Hg) as [m Hm].
  unfold detect_spam. rewrite Hm, Hs.
  apply try_except_calls_only.
  destruct (spam_predict_proba m); calls_only.
Qed.

Lemma argmax_getitem (probs : list Q) i :
  argmax probs = Ok i -> exists p, getitem probs i = Ok p.
Proof.
  intros (m & Hm & _)%argmax_spec. exists m. by apply getitem_Ok.
Qed.

(** With its models loaded and a text that passes validation, an
    endpoint returns when no model call raises, and otherwise answers
    500 with the message of the first call that raised behind its
    prefix. *)
Lemma classify_valid (g : globals) request clf vec enc :
  grievance_classifier g = Some clf -> vectorizer g = Some vec ->
  label_encoder g = Some enc -> too_short request = false ->
  (exists r, classify g request = Return r /\
     forall msg, ~ classification_failure toarray str_lower clf vec enc
                     (description request) msg) \/
  (exists msg,
     classification_failure toarray str_lower clf vec enc
       (description request) msg /\
     classify g request =
       Raise (HTTPException 500 (str "Classification error: " ++ msg))).
Proof.
  intros Hc Hv He Hs. unfold classify_grievance, classification_failure.
  rewrite Hc, Hv, He, Hs.
  destruct (transform vec _) as [x|m]; simpl; [|right; by exists m].
  destruct (predict_proba clf) as [proba|].
  - destruct (proba x) as [probs|m]; simpl; [|right; by exists m].
    destruct (argmax probs) as [i|m] eqn:Ei; simpl; [|right; by exists m].
    destruct (argmax_getitem probs i Ei) as [p ->]. simpl.
    destruct (inverse_transform enc (Z.of_nat i)) as [label|m]; simpl.
    + left. eexists. split; [done|]. intros msg. discriminate.
    + right. by exists m.
  - destruct (toarray x) as [arr|m]; simpl; [|right; by exists m].
    destruct (predict clf arr) as [n|m]; simpl; [|right; by exists m].
    destruct (inverse_transform enc n) as [label|m]; simpl.
    + left. eexists. split; [done|]. intros msg. discriminate.
    + right. by exists m.
Qed.

Lemma detect_valid (g : globals) request m :
  spam_detection_model g = Some m -> too_short request = false ->
  (exists r, detect_spam g request = Return r /\
     forall msg, ~ spam_failure m (description request) msg) \/
  (exists msg,
     spam_failure m (description request) msg /\
     detect_spam g request =
       Raise (HTTPException 500 (str "Spam detection error: " ++ msg))).
Proof.
  intros Hm Hs. unfold detect_spam, spam_failure. rewrite Hm, Hs.
  destruct (spam_predict_proba m) as [proba|].
  - destruct (proba _) as [probs|e]; simpl; [|right; by exists e].
    destruct (argmax probs) as [i|e] eqn:Ei; simpl; [|right; by exists e].
    destruct (argmax_getitem probs i Ei) as [p ->]. simpl.
    left. eexists. split; [done|]. intros msg. discriminate.
  - destruct (spam_predict m _) as [n|e]; simpl.
    + left. eexists. split; [done|]. intros msg. discriminate.
    + right. by exists e.
Qed.

(** The single-purpose endpoints answer by this table: 503 exactly when
    a model is missing; otherwise 400 exactly when the text is too
    short; otherwise a result when no model call raises, and when one
    does, 500 whose detail is the endpoint's own prefix followed by the
    message of the first call that raised.  No other exception leaves
    them. *)
Theorem endpoint_answers (g : globals) request :
  (grievance_missing g = true /\ ServiceUnavailable (classify g request) \/
   grievance_missing g = false /\ too_short request = true /\
     InvalidInput (classify g request) \/
   grievance_missing g = false /\ too_short request = false /\
     exists clf vec enc,
       grievance_classifier g = Some clf /\ vectorizer g = Some vec /\
       label_encoder g = Some enc /\
       ((exists r, classify g request = Return r /\
           forall msg, ~ classification_failure toarray str_lower clf vec enc
                           (description request) msg) \/
        (exists msg,
           classification_failure toarray str_lower clf vec enc
             (description request) msg /\
           classify g request =
             Raise (HTTPException 500 (str "Classification error: " ++ msg))))) /\
  (spam_missing g = true /\ ServiceUnavailable (detect_spam g request) \/
   spam_missing g = false /\ too_short request = true /\
     InvalidInput (detect_spam g request) \/
   spam_missing g = false /\ too_short request = false /\
     exists m,
       spam_detection_model g = Some m /\
       ((exists r, detect_spam g request = Return r /\
           forall msg, ~ spam_failure m (description request) msg) \/
        (exists msg,
           spam_failure m (description request) msg /\
           detect_spam g request =
             Raise (HTTPException 500 (str "Spam detection error: " ++ msg))))).
Proof.
  split.
  - destruct (grievance_missing g) eqn:Hg.
    + left. split; [done|]. eexists. by apply classify_unavailable.
    + right. destruct (too_short request) eqn:Hs.
      * left. repeat split. eexists. by apply classify_too_short.
      * right. repeat split.
        destruct (grievance_missing_false g Hg) as (clf & vec & enc & H1 & H2 & H3).
        exists clf, vec, enc. repeat (split; [done|]).
        by apply classify_valid.
  - destruct (spam_missing g) eqn:Hg.
    + left. split; [done|]. eexists. by apply detect_unavailable.
    + right. destruct (too_short request) eqn:Hs.
      * left. repeat split. eexists. by apply detect_too_short.
      * right. repeat split. destruct (spam_missing_false g Hg) as [m Hm].
        exists m. split; [done|]. by apply detect_valid.
Qed.

(** The combined endpoint answers 503 when a model is missing, else 400
    when the text is too short.  Otherwise it is decided by the two
    endpoints it calls: when both return, it returns the merge of their
    results; when classification fails, it fails with that very 500,
    "Classification error: " and the message of the call that raised,
    whatever spam detection would do; when classification returns and
    spam detection fails, it fails with that 500, "Spam detection
    error: " and the message.  The handler of the combined endpoint
    itself is never entered, so no detail starts with "Combined analysis
    error: ". *)
Theorem analyze_answers (g : globals) request :
  ((grievance_missing g = true \/ spam_missing g = true) /\
     ServiceUnavailable (analyze g request) \/
   grievance_missing g = false /\ spam_missing g = false /\
     too_short request = true /\ InvalidInput (analyze g request) \/
   grievance_missing g = false /\ spam_missing g = false /\
     too_short request = false /\
     exists clf vec enc m,
       grievance_classifier g = Some clf /\ vectorizer g = Some vec /\
       label_encoder g = Some enc /\ spam_detection_model g = Some m /\
       ((exists c s,
           classify g request = Return c /\ detect_spam g request = Return s /\
           analyze g request = Return (merge c s)) \/
        (exists msg,
           classification_failure toarray str_lower clf vec enc
             (description request) msg /\
           classify g request =
             Raise (HTTPException 500 (str "Classification error: " ++ msg)) /\
           analyze g request =
             Raise (HTTPException 500 (str "Classification error: " ++ msg))) \/
        (exists c msg,
           classify g request = Return c /\
           spam_failure m (description request) msg /\
           detect_spam g request =
             Raise (HTTPException 500 (str "Spam detection error: " ++ msg)) /\
           analyze g request =
             Raise (HTTPException 500 (str "Spam detection error: " ++ msg))))) /\
  ~ internal_error (analyze g request) "Combined analysis error: ".
Proof.
  destruct (grievance_missing g) eqn:Hg.
  { assert (Hu : ServiceUnavailable (analyze g request)).
    { eexists. apply analyze_unavailable.
      rewrite models_missing_nil. intros [? ?]. congruence. }
    split; [left; split; [by left|done]|].
    intros [msg Hmsg]. destruct Hu as [d Hd]. congruence. }
  destruct (spam_missing g) eqn:Hm.
  { assert (Hu : ServiceUnavailable (analyze g request)).
    { eexists. apply analyze_unavailable.
      rewrite models_missing_nil. intros [? ?]. congruence. }
    split; [left; split; [by right|done]|].
    intros [msg Hmsg]. destruct Hu as [d Hd]. congruence. }
  destruct (too_short request) eqn:Hs.
  { assert (Hi : InvalidInput (analyze g request)).
    { eexists. apply analyze_too_short; [|done]. by apply models_missing_nil. }
    split; [right; left; by repeat split|].
    intros [msg Hmsg]. destruct Hi as [d Hd]. congruence. }
  destruct (grievance_missing_false g Hg) as (clf & vec & enc & H1 & H2 & H3).
  destruct (spam_missing_false g Hm) as [m H4].
  pose proof (analyze_unfold toarray str_lower g request Hg Hm Hs) as Heq.
  destruct (classify_valid g request clf vec enc H1 H2 H3 Hs)
    as [(c & Hc & _)|(msg & Hf & Hc)].
  - destruct (detect_valid g request m H4 Hs) as [(sp & Hsp & _)|(msg & Hf & Hsp)].
    + rewrite Hc, Hsp in Heq. simpl in Heq. split.
      * right. right. repeat (split; [done|]). exists clf, vec, enc, m.
        repeat (split; [done|]). left. by exists c, sp.
      * intros [msg Hmsg]. rewrite Heq in Hmsg. discriminate Hmsg.
    + rewrite Hc, Hsp in Heq. simpl in Heq. split.
      * right. right. repeat (split; [done|]). exists clf, vec, enc, m.
        repeat (split; [done|]). right. right. by exists c, msg.
      * intros [msg' Hmsg]. rewrite Heq in Hmsg. injection Hmsg as Hmsg.
        vm_compute str in Hmsg. simpl in Hmsg. discriminate Hmsg.
  - rewrite Hc in Heq. simpl in Heq. split.
    + right. right. repeat (split; [done|]). exists clf, vec, enc, m.
      repeat (split; [done|]). right. left. by exists msg.
    + intros [msg' Hmsg]. rewrite Heq in Hmsg. injection Hmsg as Hmsg.
      vm_compute str in Hmsg. simpl in Hmsg. discriminate Hmsg.
Qed.

Lemma classify_InvalidInput (g : globals) request :
  InvalidInput (classify g request) <->
  grievance_missing g = false /\ too_short request = true.
Proof.
  split.
  - intros [d Hd].
    destruct (grievance_missing g) eqn:Hg.
    { rewrite classify_unavailable in Hd by done. discriminate Hd. }
    destruct (too_short request) eqn:Hs; [done|].
    destruct (classify_loaded g request Hg Hs) as [[r H]|[m H]]; congruence.
  - intros [Hg Hs]. eexists. by apply classify_too_short.
Qed.

Lemma detect_InvalidInput (g : globals) request :
  InvalidInput (detect_spam g request) <->
  spam_missing g = false /\ too_short request = true.
Proof.
  split.
  - intros [d Hd].
    destruct (spam_missing g) eqn:Hg.
    { rewrite detect_unavailable in Hd by done. discriminate Hd. }
    destruct (too_short request) eqn:Hs; [done|].
    destruct (detect_loaded g request Hg Hs) as [[r H]|[m H]]; congruence.
  - intros [Hg Hs]. eexists. by apply detect_too_short.
Qed.

Lemma too_short_padding ws d ws' :
  spaces ws -> spaces ws' ->
  too_short {| description := ws ++ d ++ ws' |} = too_short {| description := d |}.
Proof.
  intros Hws Hws'. unfold too_short. simpl. rewrite strip_padding by done.
  destruct d as [|c d].
  - rewrite (bool_decide_true ([] = [])) by done. simpl. apply orb_true_r.
  - rewrite !bool_decide_false; [done|done|]. by destruct ws.
Qed.

(** Validation looks at the text between its first and its last
    character that is not whitespace: padding a description with
    whitespace on either side changes neither the verdict of the length
    test nor whether an endpoint answers InvalidInput.  (The padding
    still reaches the models: only the test strips it.) *)
Theorem validation_ignores_padding (g : globals) (ws d ws' : text) :
  spaces ws -> spaces ws' ->
  too_short {| description := ws ++ d ++ ws' |} = too_short {| description := d |} /\
  (InvalidInput (classify g {| description := ws ++ d ++ ws' |}) <->
   InvalidInput (classify g {| description := d |})) /\
  (InvalidInput (detect_spam g {| description := ws ++ d ++ ws' |}) <->
   InvalidInput (detect_spam g {| description := d |})).
Proof.
  intros Hws Hws'. pose proof (too_short_padding ws d ws' Hws Hws') as H.
  split; [done|]. split.
  - by rewrite !classify_InvalidInput, H.
  - by rewrite !detect_InvalidInput, H.
Qed.

(** What the length test rejects and accepts: a description of fewer
    than five characters is rejected whatever the characters are, and so
    is a description of any length that is all whitespace; an accepted
    description has at least five characters and one that is not
    whitespace. *)
Theorem validation_rejects (request : GrievanceRequest) :
  ((length (description request) < 5)%nat -> too_short request = true) /\
  (spaces (description request) -> too_short request = true) /\
  (too_short request = false ->
   (5 <= length (description request))%nat /\ ~ spaces (description request)).
Proof.
  assert (H1 : (length (description request) < 5)%nat -> too_short request = true).
  { intros H. apply too_short_of_length.
    pose proof (strip_length (description request)). lia. }
  assert (H2 : spaces (description request) -> too_short request = true).
  { intros H. apply too_short_of_length. unfold strip.
    apply lstrip_nil_spaces in H. rewrite H. simpl. lia. }
  split; [done|]. split; [done|].
  intros Hs. split.
  - destruct (Nat.lt_ge_cases (length (description request)) 5) as [H|H]; [|done].
    rewrite H1 in Hs; done.
  - intros H. rewrite H2 in Hs; done.
Qed.

(** A predictor that returns an empty probability row makes the endpoint
    answer 500 with numpy's message behind the endpoint's prefix; no
    result is made up. *)
Theorem empty_probability_row (g : globals) request :
  too_short request = false ->
  (forall clf vec enc proba x,
     grievance_classifier g = Some clf -> vectorizer g = Some vec ->
     label_encoder g = Some enc -> predict_proba clf = Some proba ->
     transform vec (str_lower (description request)) = Ok x ->
     proba x = Ok [] ->
     classify g request = Raise (HTTPException 500 (str
       "Classification error: attempt to get argmax of an empty sequence"))) /\
  (forall m proba,
     spam_detection_model g = Some m -> spam_predict_proba m = Some proba ->
     proba (description request) = Ok [] ->
     detect_spam g request = Raise (HTTPException 500 (str
       "Spam detection error: attempt to get argmax of an empty sequence"))).
Proof.
  intros Hs. split.
  - intros clf vec enc proba x Hc Hv He Hp Hx Hrow.
    unfold classify_grievance. rewrite Hc, Hv, He, Hs, Hx. simpl.
    rewrite Hp. simpl. by rewrite Hrow.
  - intros m proba Hm Hp Hrow.
    unfold detect_spam. rewrite Hm, Hs, Hp. simpl. by rewrite Hrow.
Qed.

(** With a two-class probability row [p0, p1] the text is spam exactly
    when p1 is strictly larger than p0: a tie is not spam, because
    [np.argmax] takes the first maximal entry.  The confidence is the
    larger of the two. *)
Theorem spam_two_classes (g : globals) request m proba (p0 p1 : Q) :
  spam_detection_model g = Some m -> too_short request = false ->
  spam_predict_proba m = Some proba ->
  proba (description request) = Ok [p0; p1] ->
  ((p1 <= p0)%Q ->
   detect_spam g request = Return
     {| Spam.is_spam := false; Spam.confidence_score := Some p0 |}) /\
  ((p0 < p1)%Q ->
   detect_spam g request = Return
     {| Spam.is_spam := true; Spam.confidence_score := Some p1 |}).
Proof.
  intros Hm Hs Hp Hrow.
  unfold detect_spam. rewrite Hm, Hs, Hp. simpl. rewrite Hrow. simpl.
  split.
  - intros Hle. apply Qle_bool_iff in Hle. by rewrite Hle.
  - intros Hlt. destruct (Qle_bool p1 p0) eqn:E; [|done].
    apply Qle_bool_iff in E. by apply Qlt_not_le in Hlt.
Qed.

Lemma Qsum_bound (l : list Q) (m : Q) :
  (forall q, q ∈ l -> (q <= m)%Q) ->
  (Qsum l <= inject_Z (Z.of_nat (length l)) * m)%Q.
Proof.
  induction l as [|x l IH]; intros H.
  - unfold Qsum. simpl. rewrite Qmult_0_l. apply Qle_refl.
  - assert (E : (inject_Z (Z.of_nat (length (x :: l))) * m ==
                 m + inject_Z (Z.of_nat (length l)) * m)%Q).
    { simpl length. rewrite Nat2Z.inj_succ. unfold Z.succ.
      rewrite inject_Z_plus. ring. }
    rewrite E. change (Qsum (x :: l)) with (x + Qsum l)%Q.
    apply Qplus_le_compat.
    + apply H. by left.
    + apply IH. intros q Hq. apply H. by right.
Qed.

Lemma is_argmax_maximum (probs : list Q) i p :
  is_argmax probs i -> probs !! i = Some p ->
  p ∈ probs /\ (forall q, q ∈ probs -> (q <= p)%Q) /\
  (Qsum probs == 1 -> 1 <= inject_Z (Z.of_nat (length probs)) * p)%Q.
Proof.
  intros (m & Hm & Hle & _) Hp. assert (m = p) as -> by congruence.
  assert (Hall : forall q, q ∈ probs -> (q <= p)%Q).
  { intros q [j Hj]%list_elem_of_lookup. eauto. }
  split; [by eapply list_elem_of_lookup_2|]. split; [done|].
  intros Hsum. rewrite <- Hsum. by apply Qsum_bound.
Qed.

(** The confidence an endpoint reports is an entry of the probability
    row of its predictor and bounds every entry of the row; when the row
    sums to 1 over n classes, the confidence is at least 1/n. *)
Theorem confidence_is_row_maximum (g : globals) request :
  (forall r p,
     classify g request = Return r ->
     Classification.confidence_score r = Some p ->
     exists clf vec proba x probs,
       grievance_classifier g = Some clf /\ vectorizer g = Some vec /\
       predict_proba clf = Some proba /\
       transform vec (str_lower (description request)) = Ok x /\
       proba x = Ok probs /\ p ∈ probs /\
       (forall q, q ∈ probs -> (q <= p)%Q) /\
       (Qsum probs == 1 -> 1 <= inject_Z (Z.of_nat (length probs)) * p)%Q) /\
  (forall r p,
     detect_spam g request = Return r ->
     Spam.confidence_score r = Some p ->
     exists m proba probs,
       spam_detection_model g = Some m /\ spam_predict_proba m = Some proba /\
       proba (description request) = Ok probs /\ p ∈ probs /\
       (forall q, q ∈ probs -> (q <= p)%Q) /\
       (Qsum probs == 1 -> 1 <= inject_Z (Z.of_nat (length probs)) * p)%Q).
Proof.
  split.
  - intros r p Hr Hp.
    destruct (classify_Return _ _ g request r Hr)
      as (clf & vec & enc & x & Hc & Hv & _ & _ & Hx & Hcase).
    destruct Hcase as [(proba & probs & i & q & Hpr & Hprobs & Hi%argmax_spec & Hq & _ & Hconf)
                      |(a & n & _ & _ & _ & _ & Hnone)]; [|congruence].
    assert (q = p) as -> by congruence.
    exists clf, vec, proba, x, probs. repeat (split; [done|]).
    by apply (is_argmax_maximum probs i).
  - intros r p Hr Hp.
    destruct (detect_Return g request r Hr) as (m & Hm & _ & Hcase).
    destruct Hcase as [(proba & probs & i & q & Hpr & Hprobs & Hi%argmax_spec & Hq & _ & Hconf)
                      |(n & _ & _ & _ & Hnone)]; [|congruence].
    assert (q = p) as -> by congruence.
    exists m, proba, probs. repeat (split; [done|]).
    by apply (is_argmax_maximum probs i).
Qed.

End Endpoints.

(** *** Loading the models *)

Section Loading.

Context {features dense : Type}.
Variable import_xgboost : outcome unit.
Variable Booster : Classifier features dense.

Local Abbreviation startup := (UnifiedApi.startup import_xgboost Booster).
Local Abbreviation load_models := (UnifiedApi.load_models import_xgboost Booster).
Local Abbreviation disk := (UnifiedApi.disk features dense).
Local Abbreviation globals := (UnifiedApi.globals features dense).

(** The five ways a run of [load_models] ends. *)
Lemma load_models_cases (d : disk) (g : globals) :
  (classifier_loaded import_xgboost d = None /\
   (load_models d g).2 = false /\
   grievance_classifier (load_models d g).1 =
     (if booster_left import_xgboost d then Some Booster
      else grievance_classifier g) /\
   vectorizer (load_models d g).1 = vectorizer g /\
   label_encoder (load_models d g).1 = label_encoder g /\
   spam_detection_model (load_models d g).1 = spam_detection_model g) \/
  (exists c,
     classifier_loaded import_xgboost d = Some c /\
     loaded (vectorizer_pkl d) = None /\
     (load_models d g).2 = false /\
     grievance_classifier (load_models d g).1 = c /\
     vectorizer (load_models d g).1 = vectorizer g /\
     label_encoder (load_models d g).1 = label_encoder g /\
     spam_detection_model (load_models d g).1 = spam_detection_model g) \/
  (exists c v,
     classifier_loaded import_xgboost d = Some c /\
     loaded (vectorizer_pkl d) = Some v /\
     loaded (label_encoder_pkl d) = None /\
     (load_models d g).2 = false /\
     grievance_classifier (load_models d g).1 = c /\
     vectorizer (load_models d g).1 = v /\
     label_encoder (load_models d g).1 = label_encoder g /\
     spam_detection_model (load_models d g).1 = spam_detection_model g) \/
  (exists c v e,
     classifier_loaded import_xgboost d = Some c /\
     loaded (vectorizer_pkl d) = Some v /\
     loaded (label_encoder_pkl d) = Some e /\
     loaded (model_pkl d) = None /\
     (load_models d g).2 = false /\
     grievance_classifier (load_models d g).1 = c /\
     vectorizer (load_models d g).1 = v /\
     label_encoder (load_models d g).1 = e /\
     spam_detection_model (load_models d g).1 = spam_detection_model g) \/
  (exists c v e m,
     classifier_loaded import_xgboost d = Some c /\
     loaded (vectorizer_pkl d) = Some v /\
     loaded (label_encoder_pkl d) = Some e /\
     loaded (model_pkl d) = Some m /\
     (load_models d g).2 = true /\
     grievance_classifier (load_models d g).1 = c /\
     vectorizer (load_models d g).1 = v /\
     label_encoder (load_models d g).1 = e /\
     spam_detection_model (load_models d g).1 = m).
Proof.
  destruct (load_models_stages import_xgboost Booster d g) as [H1 H2].
  destruct (classifier_loaded import_xgboost d) as [c|].
  - right. destruct (H2 c eq_refl) as (Hc & Hv1 & Hv2).
    destruct (loaded (vectorizer_pkl d)) as [v|].
    + right. destruct (Hv2 v eq_refl) as (Hv & He1 & He2).
      destruct (loaded (label_encoder_pkl d)) as [e|].
      * right. destruct (He2 e eq_refl) as (He & Hm1 & Hm2).
        destruct (loaded (model_pkl d)) as [m|].
        -- right. destruct (Hm2 m eq_refl) as [Hr Hm].
           by exists c, v, e, m.
        -- left. destruct (Hm1 eq_refl) as [Hr Hm]. by exists c, v, e.
      * left. destruct (He1 eq_refl) as (Hr & He & Hm). by exists c, v.
    + left. destruct (Hv1 eq_refl) as (Hr & Hv & He & Hm). by exists c.
  - left. destruct (H1 eq_refl) as (Hr & Hc & Hv & He & Hm). done.
Qed.

Ltac ended_as H :=
  destruct H as
    [(Ec & Hr & Hc & Hv & He & Hm)
    |[(c & Ec & Ev & Hr & Hc & Hv & He & Hm)
     |[(c & v & Ec & Ev & Ee & Hr & Hc & Hv & He & Hm)
      |[(c & v & e & Ec & Ev & Ee & Em & Hr & Hc & Hv & He & Hm)
       |(c & v & e & m & Ec & Ev & Ee & Em & Hr & Hc & Hv & He & Hm)]]]].

(** After start-up a model variable is set only if every stage before it
    loaded, and [load_models] returns [True] exactly when all four
    stages loaded.  When no pickle holds [None], the installed models
    are therefore an initial part of the loading order classifier,
    vectorizer, label encoder, spam model: the combined endpoint can
    report both subsystems or spam detection alone as missing, never
    grievance classification alone, and [True] is returned exactly when
    no subsystem is missing.  A pickle that holds [None] breaks this:
    with such a vectorizer pickle and everything else in order,
    [load_models] returns [True] and grievance classification alone is
    missing. *)
Theorem startup_installs_a_prefix (d : disk) :
  (spam_detection_model (startup d) <> None ->
     (load_models d initial).2 = true) /\
  (label_encoder (startup d) <> None ->
     exists c v, classifier_loaded import_xgboost d = Some c /\
       loaded (vectorizer_pkl d) = Some v) /\
  (vectorizer (startup d) <> None ->
     exists c, classifier_loaded import_xgboost d = Some c) /\
  ((load_models d initial).2 = true <->
   exists c v e m,
     classifier_loaded import_xgboost d = Some c /\
     loaded (vectorizer_pkl d) = Some v /\
     loaded (label_encoder_pkl d) = Some e /\
     loaded (model_pkl d) = Some m) /\
  (classifier_loaded import_xgboost d <> Some None ->
   loaded (vectorizer_pkl d) <> Some None ->
   loaded (label_encoder_pkl d) <> Some None ->
   loaded (model_pkl d) <> Some None ->
     (spam_missing (startup d) = false -> grievance_missing (startup d) = false) /\
     models_missing (startup d) <> [str "grievance classification"] /\
     ((load_models d initial).2 = true <-> models_missing (startup d) = [])) /\
  (forall c e m,
     classifier_loaded import_xgboost d = Some (Some c) ->
     loaded (vectorizer_pkl d) = Some None ->
     loaded (label_encoder_pkl d) = Some (Some e) ->
     loaded (model_pkl d) = Some (Some m) ->
     (load_models d initial).2 = true /\
     models_missing (startup d) = [str "grievance classification"]).
Proof.
  unfold UnifiedApi.startup, models_missing, grievance_missing, spam_missing.
  pose proof (load_models_cases d initial) as H. ended_as H;
    rewrite Hr, ?Hc, Hv, He, Hm, Ec, ?Ev, ?Ee, ?Em; simpl.
  - split; [done|]. split; [done|]. split; [done|].
    split; [split; [done|by intros (? & ? & ? & ? & ? & _)]|].
    split; [|by intros ? ? ? ?].
    intros _ _ _ _.
    by destruct (if booster_left import_xgboost d then _ else _).
  - split; [done|]. split; [done|]. split; [done|].
    split; [split; [done|by intros (? & ? & ? & ? & _ & ? & _)]|].
    split; [|by intros ? ? ? _ ?].
    intros _ _ _ _. by destruct c.
  - split; [done|]. split; [done|]. split; [eauto|].
    split; [split; [done|by intros (? & ? & ? & ? & _ & _ & ? & _)]|].
    split; [|by intros ? ? ? _ _ ?].
    intros _ _ _ _. by destruct c, v.
  - split; [done|]. split; [eauto|]. split; [eauto|].
    split; [split; [done|by intros (? & ? & ? & ? & _ & _ & _ & ?)]|].
    split; [|by intros ? ? ? _ _ _ ?].
    intros _ _ _ _. by destruct c, v, e.
  - split; [done|]. split; [eauto|]. split; [eauto|].
    split; [split; [eauto 10|done]|].
    split.
    + intros Hnc Hnv Hne Hnm.
      destruct c as [c|]; [|done]. destruct v as [v|]; [|done].
      destruct e as [e|]; [|done]. destruct m as [m|]; [|done]. done.
    + intros c' e' m' [= ->] [= ->] [= ->] [= ->]. done.
Qed.

(** The pickled classifier takes precedence: when
    grievance_classifier.pkl exists, whether it loads or not, the
    XGBoost file plays no part in what [load_models] installs or
    returns. *)
Theorem pickle_shadows_xgboost (d : disk) (json : file (Classifier features dense))
    (g : globals) :
  exists_ (grievance_classifier_pkl d) = true ->
  load_models d g =
  load_models {| grievance_classifier_pkl := grievance_classifier_pkl d;
                 grievance_classifier_json := json;
                 vectorizer_pkl := vectorizer_pkl d;
                 label_encoder_pkl := label_encoder_pkl d;
                 model_pkl := model_pkl d |} g.
Proof.
  destruct d as [pkl json' vec enc model]. simpl. intros Hpkl.
  unfold UnifiedApi.load_models, UnifiedApi.load_models_body. simpl.
  by rewrite Hpkl.
Qed.

(** [load_models] assigns what it loads and nothing else: running it
    again on the same disk changes nothing and returns the same value; a
    variable that is set stays set as long as the object its stage loads
    is not [None]; and a pickle that holds [None] sets its variable back
    to [None], as the classifier pickle shows. *)
Theorem load_models_only_adds (d : disk) (g : globals) :
  load_models d (load_models d g).1 = load_models d g /\
  (classifier_loaded import_xgboost d <> Some None ->
   grievance_classifier g <> None ->
     grievance_classifier (load_models d g).1 <> None) /\
  (loaded (vectorizer_pkl d) <> Some None -> vectorizer g <> None ->
     vectorizer (load_models d g).1 <> None) /\
  (loaded (label_encoder_pkl d) <> Some None -> label_encoder g <> None ->
     label_encoder (load_models d g).1 <> None) /\
  (loaded (model_pkl d) <> Some None -> spam_detection_model g <> None ->
     spam_detection_model (load_models d g).1 <> None) /\
  (grievance_classifier_pkl d = Stored None ->
     grievance_classifier (load_models d g).1 = None).
Proof.
  split.
  { destruct d as [pkl json vec enc model].
    unfold UnifiedApi.load_models, UnifiedApi.load_models_body.
    destruct pkl as [| |[|]];
      [destruct json, import_xgboost as [[]|?]|..]; simpl; try reflexivity;
    destruct vec as [| |[|]]; simpl; try reflexivity;
    destruct enc as [| |[|]]; simpl; try reflexivity;
    destruct model as [| |[|]]; simpl; reflexivity. }
  split; [|split; [|split; [|split]]].
  - pose proof (load_models_cases d g) as H. ended_as H; rewrite Hc, Ec.
    + intros _ Hg. by destruct (booster_left import_xgboost d).
    + congruence.
    + congruence.
    + congruence.
    + congruence.
  - pose proof (load_models_cases d g) as H. ended_as H; rewrite Hv, ?Ev;
      congruence.
  - pose proof (load_models_cases d g) as H. ended_as H; rewrite He, ?Ee;
      congruence.
  - pose proof (load_models_cases d g) as H. ended_as H; rewrite Hm, ?Em;
      congruence.
  - intros Hpkl.
    pose proof (load_models_cases d g) as H.
    assert (Hcl : classifier_loaded import_xgboost d = Some None)
      by (unfold classifier_loaded; by rewrite Hpkl).
    ended_as H; rewrite Hc; congruence.
Qed.

(** When only the XGBoost file exists and [load_model] fails on it, the
    new empty booster has already been assigned: [load_models] returns
    [False], the classifier variable holds the empty booster, and the
    other three variables are as before.  From start-up the vectorizer
    is then missing, so the classification endpoint still answers 503. *)
Theorem failed_xgboost_load_leaves_empty_booster (d : disk) (g : globals) msg :
  grievance_classifier_pkl d = Missing -> import_xgboost = Ok tt ->
  grievance_classifier_json d = Unreadable msg ->
  (load_models d g).2 = false /\
  grievance_classifier (load_models d g).1 = Some Booster /\
  vectorizer (load_models d g).1 = vectorizer g /\
  label_encoder (load_models d g).1 = label_encoder g /\
  spam_detection_model (load_models d g).1 = spam_detection_model g /\
  grievance_missing (startup d) = true.
Proof.
  destruct d as [pkl json vec enc model]. simpl. intros -> Hi ->.
  unfold UnifiedApi.startup, UnifiedApi.load_models,
    UnifiedApi.load_models_body. rewrite Hi. simpl. done.
Qed.

End Loading.

(** *** Concrete runs *)

Section Runs.
Import Sample Fixtures.

Local Abbreviation classify := (classify_grievance dense_of lower).

Lemma validation_ignores_padding_witness :
  spaces padding_left /\ spaces padding_right /\
  too_short {| description := padding_left ++ description hi ++ padding_right |}
    = true.
Proof.
  assert (Hl : spaces padding_left) by (repeat constructor).
  assert (Hr : spaces padding_right) by (repeat constructor).
  split; [exact Hl|]. split; [exact Hr|].
  destruct (validation_ignores_padding dense_of lower all_loaded
              padding_left (description hi) padding_right Hl Hr) as [H _].
  rewrite H. reflexivity.
Defined.

Lemma empty_probability_row_witness :
  too_short pothole = false /\
  classify hollow_loaded pothole = Raise (HTTPException 500 (str
    "Classification error: attempt to get argmax of an empty sequence")).
Proof.
  split; [reflexivity|].
  destruct (empty_probability_row dense_of lower hollow_loaded pothole eq_refl)
    as [H _].
  eapply (H hollow_forest tfidf encoder); reflexivity.
Defined.

Lemma spam_two_classes_witness :
  too_short pothole = false /\
  detect_spam tie_loaded pothole = Return
    {| Spam.is_spam := false; Spam.confidence_score := Some (1 # 2)%Q |}.
Proof.
  split; [reflexivity|].
  destruct (spam_two_classes tie_loaded pothole spam_tie _ (1 # 2)%Q (1 # 2)%Q
              eq_refl eq_refl eq_refl eq_refl) as [H _].
  apply H. apply Qle_refl.
Defined.

Lemma startup_with_none_pickle :
  classifier_loaded (Ok tt) none_vectorizer = Some (Some forest) /\
  loaded (vectorizer_pkl none_vectorizer) = Some None /\
  (load_models (Ok tt) empty_booster none_vectorizer initial).2 = true /\
  models_missing (UnifiedApi.startup (Ok tt) empty_booster none_vectorizer)
    = [str "grievance classification"].
Proof.
  split; [reflexivity|]. split; [reflexivity|].
  destruct (startup_installs_a_prefix (Ok tt) empty_booster none_vectorizer)
    as (_ & _ & _ & _ & _ & H).
  apply (H forest encoder spam_proba); reflexivity.
Defined.

Lemma pickle_shadows_xgboost_witness :
  exists_ (grievance_classifier_pkl full_disk) = true /\
  load_models (Ok tt) empty_booster full_disk initial =
  load_models (Ok tt) empty_booster
    {| grievance_classifier_pkl := Stored (Some forest);
       grievance_classifier_json := Stored booster;
       vectorizer_pkl := Stored (Some tfidf);
       label_encoder_pkl := Stored (Some encoder);
       model_pkl := Stored (Some spam_proba) |} initial.
Proof.
  split; [reflexivity|].
  apply (pickle_shadows_xgboost (Ok tt) empty_booster full_disk (Stored booster)
           initial eq_refl).
Defined.

Lemma failed_xgboost_load_witness :
  grievance_classifier_pkl broken_xgboost = Missing /\
  grievance_classifier_json broken_xgboost
    = Unreadable (str "Check failed: model file is empty") /\
  grievance_classifier (load_models (Ok tt) empty_booster broken_xgboost initial).1
    = Some empty_booster.
Proof.
  split; [reflexivity|]. split; [reflexivity|].
  destruct (failed_xgboost_load_leaves_empty_booster (Ok tt) empty_booster
              broken_xgboost initial _ eq_refl eq_refl eq_refl) as (_ & H & _).
  exact H.
Defined.

End Runs.

End UnifiedApiMore.

(** ** Further properties of scripts/main.py *)

Module MainMore.
Import Main MainSpec.

(** *** File names *)

Lemma endswith_spec (s suffix : text) :
  endswith s suffix = true <-> exists name, s = name ++ suffix.
Proof.
  unfold endswith. rewrite bool_decide_eq_true. split.
  - intros H. pose proof (take_drop (length s - length suffix) s) as E.
    rewrite H in E. by exists (take (length s - length suffix) s).
  - intros [name ->]. rewrite length_app.
    replace (length name + length suffix - length suffix)%nat
      with (length name) by lia.
    by rewrite drop_app_length.
Qed.

(** *** Session identifiers *)

Lemma nibble_lt (x : N) : (N.land x 15 < 16)%N.
Proof.
  change 15%N with (N.ones 4). rewrite N.land_ones.
  apply N.mod_lt. discriminate.
Qed.

Lemma hexdigit_inj (a b : N) :
  (a < 16)%N -> (b < 16)%N -> hexdigit a = hexdigit b -> a = b.
Proof.
  unfold hexdigit. intros Ha Hb.
  destruct (N.ltb_spec a 10), (N.ltb_spec b 10); lia.
Qed.

Lemma hexdigit_is_hex (a : N) : (a < 16)%N -> is_hex (hexdigit a).
Proof.
  unfold hexdigit, is_hex. intros Ha. destruct (N.ltb_spec a 10); lia.
Qed.

Lemma hex_nibbles (w : nat) (n m : N) :
  hex w n = hex w m ->
  forall k, (k < w)%nat ->
    N.land (N.shiftr n (4 * N.of_nat k)) 15 = N.land (N.shiftr m (4 * N.of_nat k)) 15.
Proof.
  induction w as [|w IH]; intros H k Hk; [lia|].
  cbn [hex] in H. injection H as Hd Hrest.
  destruct (decide (k = w)) as [->|Hne].
  - apply hexdigit_inj; [apply nibble_lt..|done].
  - apply IH; [done|lia].
Qed.

Lemma nibble_bit (n : N) (k j : N) :
  (j < 4)%N ->
  N.testbit (N.land (N.shiftr n (4 * k)) 15) j = N.testbit n (j + 4 * k).
Proof.
  intros Hj. rewrite N.land_spec, N.shiftr_spec'.
  assert (j = 0 \/ j = 1 \/ j = 2 \/ j = 3)%N as [->|[->|[->| ->]]] by lia;
    apply andb_true_r.
Qed.

(** ['%0<w>x'] loses nothing of a number of [4 w] bits. *)
Lemma hex_inj (w : nat) (n m : N) :
  (n < 2 ^ (4 * N.of_nat w))%N -> (m < 2 ^ (4 * N.of_nat w))%N ->
  hex w n = hex w m -> n = m.
Proof.
  intros Hn Hm H. apply N.bits_inj. intros i.
  destruct (N.lt_ge_cases i (4 * N.of_nat w)) as [Hi|Hi].
  - pose proof (hex_nibbles w n m H (N.to_nat (i / 4))) as Hk.
    rewrite N2Nat.id in Hk.
    assert (Hlt : (N.to_nat (i / 4) < w)%nat).
    { assert (i / 4 < N.of_nat w)%N
        by (apply N.Div0.div_lt_upper_bound; lia).
      lia. }
    specialize (Hk Hlt).
    apply (f_equal (fun x => N.testbit x (i mod 4))) in Hk.
    rewrite !nibble_bit in Hk by (apply N.mod_lt; discriminate).
    replace (i mod 4 + 4 * (i / 4))%N with i in Hk; [done|].
    rewrite (N.div_mod i 4) at 1 by discriminate. lia.
  - rewrite <- (N.mod_small n (2 ^ (4 * N.of_nat w))) by done.
    rewrite <- (N.mod_small m (2 ^ (4 * N.of_nat w))) by done.
    by rewrite !N.mod_pow2_bits_high.
Qed.

Ltac explode h Hh :=
  do 32 (destruct h as [|? h]; [discriminate Hh|]);
  destruct h; [|discriminate Hh]; clear Hh.

Lemma uuid_str_hex (n m : N) : uuid_str n = uuid_str m -> hex 32 n = hex 32 m.
Proof.
  unfold uuid_str.
  generalize (hex_length 32 n) (hex_length 32 m).
  generalize (hex 32 n) (hex 32 m). intros h h' Hh Hh'.
  explode h Hh. explode h' Hh'. simpl.
  intros H. injection H. intros. by subst.
Qed.

(** Printing a 128-bit number as a UUID string loses nothing. *)
Lemma uuid_str_inj (n m : N) :
  (n < 2 ^ 128)%N -> (m < 2 ^ 128)%N -> uuid_str n = uuid_str m -> n = m.
Proof.
  intros Hn Hm H. apply (hex_inj 32); [done..|]. by apply uuid_str_hex.
Qed.

Lemma hex_is_hex (w : nat) (n : N) : Forall is_hex (hex w n).
Proof.
  induction w as [|w IH]; cbn [hex]; constructor; [|done].
  apply hexdigit_is_hex, nibble_lt.
Qed.

(** The variant field, bits 62 and 63, is binary 10. *)
Lemma uuid4_variant r :
  N.testbit (uuid4 r) 63 = true /\ N.testbit (uuid4 r) 62 = false.
Proof.
  unfold uuid4.
  split; repeat first [rewrite N.lor_spec | rewrite N.ldiff_spec];
    match goal with
    | |- ((?a && negb ?b || ?c) && negb ?d || ?e) = ?rhs =>
        let b' := eval vm_compute in b in
        let c' := eval vm_compute in c in
        let d' := eval vm_compute in d in
        let e' := eval vm_compute in e in
        change (((a && negb b' || c') && negb d' || e') = rhs)
    end; simpl; by rewrite ?andb_false_r, ?orb_true_r.
Qed.

Lemma hex_lookup (w : nat) (n : N) : forall i, (i < w)%nat ->
  hex w n !! i =
  Some (hexdigit (N.land (N.shiftr n (4 * N.of_nat (w - 1 - i))) 15)).
Proof.
  induction w as [|w IH]; intros i Hi; [lia|]. cbn [hex].
  destruct i as [|i]; simpl lookup.
  - by replace (S w - 1 - 0)%nat with w by lia.
  - rewrite IH by lia. by replace (S w - 1 - S i)%nat with (w - 1 - i)%nat by lia.
Qed.

Lemma uuid4_version_digit r : hex 32 (uuid4 r) !! 12%nat = Some 52%N.
Proof.
  rewrite hex_lookup by lia.
  change (4 * N.of_nat (32 - 1 - 12))%N with 76%N. by rewrite uuid4_version.
Qed.

Lemma uuid4_variant_digit r :
  exists c, hex 32 (uuid4 r) !! 16%nat = Some c /\
    (c = 56 \/ c = 57 \/ c = 97 \/ c = 98)%N.
Proof.
  rewrite hex_lookup by lia. eexists. split; [done|].
  change (N.of_nat (32 - 1 - 16)) with 15%N.
  destruct (uuid4_variant r) as [H63 H62].
  pose proof (nibble_bit (uuid4 r) 15 3 eq_refl) as H3.
  pose proof (nibble_bit (uuid4 r) 15 2 eq_refl) as H2.
  change (3 + 4 * 15)%N with 63%N in H3. change (2 + 4 * 15)%N with 62%N in H2.
  rewrite H63 in H3. rewrite H62 in H2.
  pose proof (nibble_lt (N.shiftr (uuid4 r) (4 * 15))) as Hlt.
  revert H3 H2 Hlt. generalize (N.land (N.shiftr (uuid4 r) (4 * 15)) 15).
  intros x H3 H2 Hlt.
  assert (x = 0 \/ x = 1 \/ x = 2 \/ x = 3 \/ x = 4 \/ x = 5 \/ x = 6 \/ x = 7 \/
          x = 8 \/ x = 9 \/ x = 10 \/ x = 11 \/ x = 12 \/ x = 13 \/ x = 14 \/
          x = 15)%N as Hx by lia.
  repeat (destruct Hx as [->|Hx]; [first [discriminate H3|discriminate H2|
    vm_compute; tauto]|]).
  subst x. discriminate H2.
Qed.

(** A session identifier is the canonical text of a version-4 UUID: 36
    characters, dashes at positions 8, 13, 18 and 23, lower-case
    hexadecimal digits elsewhere, the digit 4 at position 14 and one of
    8, 9, a, b at position 19. *)
Theorem session_id_format (urandom16 : N) :
  length (uuid_str (uuid4 urandom16)) = 36%nat /\
  uuid_str (uuid4 urandom16) !! 8%nat = Some 45%N /\
  uuid_str (uuid4 urandom16) !! 13%nat = Some 45%N /\
  uuid_str (uuid4 urandom16) !! 18%nat = Some 45%N /\
  uuid_str (uuid4 urandom16) !! 23%nat = Some 45%N /\
  uuid_str (uuid4 urandom16) !! 14%nat = Some 52%N /\
  (exists c, uuid_str (uuid4 urandom16) !! 19%nat = Some c /\
     (c = 56 \/ c = 57 \/ c = 97 \/ c = 98)%N) /\
  (forall (i : nat) c, uuid_str (uuid4 urandom16) !! i = Some c ->
     i ∉ [8; 13; 18; 23]%nat -> is_hex c).
Proof.
  split; [apply uuid_str_length|].
  pose proof (hex_length 32 (uuid4 urandom16)) as Hlen.
  pose proof (hex_is_hex 32 (uuid4 urandom16)) as Hhex.
  pose proof (uuid4_version_digit urandom16) as Hversion.
  pose proof (uuid4_variant_digit urandom16) as Hvariant.
  unfold uuid_str. cbv zeta.
  revert Hlen Hhex Hversion Hvariant. generalize (hex 32 (uuid4 urandom16)).
  intros h Hlen Hhex Hversion Hvariant.
  explode h Hlen. simpl in Hversion, Hvariant |- *.
  repeat (split; [done|]).
  intros i c Hi Hni. rewrite Forall_forall in Hhex.
  do 36 (destruct i as [|i];
    [simpl in Hi; injection Hi as <-;
     first [solve [apply Hhex; repeat constructor]
           |solve [exfalso; apply Hni; repeat constructor]]|]).
  discriminate Hi.
Qed.

(** Outside the bits it occupies, a shifted constant has no bit set. *)
Lemma testbit_shiftl_outside (c k w i : N) :
  (c < 2 ^ w)%N -> (i < k \/ k + w <= i)%N ->
  N.testbit (N.shiftl c k) i = false.
Proof.
  intros Hc [Hi|Hi].
  - by apply N.shiftl_spec_low.
  - rewrite N.shiftl_spec_high' by lia.
    rewrite <- (N.mod_small c (2 ^ w)) by done.
    apply N.mod_pow2_bits_high. lia.
Qed.

(** All bits of a UUID except the two of the variant and the four of the
    version are the random bits. *)
Lemma uuid4_random_bits r i :
  (i < 128)%N -> i <> 62%N -> i <> 63%N -> ~ (76 <= i /\ i <= 79)%N ->
  N.testbit (uuid4 r) i = N.testbit r i.
Proof.
  intros Hi H62 H63 Hv. unfold uuid4.
  change (N.shiftl 49152 48) with (N.shiftl 3 62).
  change (N.shiftl 32768 48) with (N.shiftl 1 63).
  change (N.shiftl 61440 64) with (N.shiftl 15 76).
  change (N.shiftl 4 76) with (N.shiftl 1 78).
  repeat first [rewrite N.lor_spec | rewrite N.ldiff_spec | rewrite N.land_spec].
  rewrite N.ones_spec_low by done.
  rewrite (testbit_shiftl_outside 3 62 2) by (first [reflexivity|lia]).
  rewrite (testbit_shiftl_outside 1 63 1) by (first [reflexivity|lia]).
  rewrite (testbit_shiftl_outside 15 76 4) by (first [reflexivity|lia]).
  rewrite (testbit_shiftl_outside 1 78 1) by (first [reflexivity|lia]).
  simpl. by rewrite !andb_true_r, !orb_false_r.
Qed.

(** *** Uploads *)

Section Server.

Context {page : Type}.
Variable PdfReader : list Byte.byte -> outcome (list page).
Variable extract_text : page -> outcome text.
Variable environ_GEMINI_API_KEY : option text.
Variable generate_content : text -> outcome text.
Variable model_predict : text -> outcome Z.

Local Abbreviation init_rag := (Main.init_rag PdfReader extract_text).
Local Abbreviation ask_question :=
  (Main.ask_question environ_GEMINI_API_KEY generate_content).
Local Abbreviation handle :=
  (Main.handle PdfReader extract_text environ_GEMINI_API_KEY generate_content
     model_predict).
Local Abbreviation run :=
  (Main.run PdfReader extract_text environ_GEMINI_API_KEY generate_content
     model_predict).
Local Abbreviation fresh_ids :=
  (Main.fresh_ids PdfReader extract_text environ_GEMINI_API_KEY generate_content
     model_predict).
Local Abbreviation extract_pages := (Main.extract_pages extract_text).
Local Abbreviation API_KEY := (GEMINI_API_KEY environ_GEMINI_API_KEY).
Local Abbreviation extracted :=
  (Forall2 (fun p t => extract_text p = Ok t)).

(** The loop over the pages computes [document_text] of the page texts. *)
Lemma extract_pages_spec pages : forall acc txt,
  extract_pages pages acc = Ok txt <->
  exists texts, extracted pages texts /\ txt = acc ++ document_text texts.
Proof.
  induction pages as [|pg pages IH]; intros acc txt; simpl.
  - split.
    + intros [= <-]. exists []. split; [constructor|]. by rewrite app_nil_r.
    + intros (texts & Hx & ->). inversion Hx. by rewrite app_nil_r.
  - destruct (extract_text pg) as [t|msg] eqn:E; simpl.
    + rewrite IH. split.
      * intros (texts & Hx & ->). exists (t :: texts).
        split; [by constructor|]. unfold document_text. simpl.
        by rewrite <- !app_assoc.
      * intros (texts & Hx & ->). inversion Hx as [|? t' ? texts' Ht Hx']; subst.
        assert (t' = t) as -> by congruence.
        exists texts'. split; [done|]. unfold document_text. simpl.
        by rewrite <- !app_assoc.
    + split; [done|]. intros (texts & Hx & _).
      inversion Hx; subst. congruence.
Qed.

Lemma extract_pages_failed before : forall pg rest texts acc msg,
  extracted before texts -> extract_text pg = Failed msg ->
  extract_pages (before ++ pg :: rest) acc = Failed msg.
Proof.
  induction before as [|b before IH]; intros pg rest texts acc msg Hx Hpg; simpl.
  - by rewrite Hpg.
  - inversion Hx as [|? t ? texts' Ht Hx']; subst. rewrite Ht. simpl.
    by eapply IH.
Qed.

Lemma document_text_cons t texts :
  document_text (t :: texts) =
  t ++ str (String "010" EmptyString) ++ document_text texts.
Proof. unfold document_text. simpl. by rewrite <- app_assoc. Qed.

Lemma document_text_length texts :
  length (document_text texts) = (sum_list (length <$> texts) + length texts)%nat.
Proof.
  induction texts as [|t texts IH]; [done|].
  rewrite document_text_cons, !length_app, IH.
  change (length (str (String "010" EmptyString))) with 1%nat.
  rewrite fmap_cons. simpl sum_list. simpl length. lia.
Qed.

Lemma document_text_nil texts : document_text texts = [] <-> texts = [].
Proof.
  split; [|by intros ->]. intros H. apply (f_equal length) in H.
  rewrite document_text_length in H. destruct texts; [done|simpl in H; lia].
Qed.

(** The name test of [init_rag] accepts exactly the names that end in
    ".pdf", in lower case: any other upload is answered 400 "Only PDF
    files are allowed" before its content is read, and the session map
    is left as it was. *)
Theorem only_pdf_names_are_read (pdf_files : UploadFile) (urandom16 : N)
    (pdf_sessions : gmap text text) :
  ((init_rag pdf_files urandom16 pdf_sessions).2 =
     Raise (HTTPException 400 (str "Only PDF files are allowed")) <->
   ~ exists name, filename pdf_files = name ++ str ".pdf") /\
  ((~ exists name, filename pdf_files = name ++ str ".pdf") ->
   (init_rag pdf_files urandom16 pdf_sessions).1 = pdf_sessions).
Proof.
  rewrite <- endswith_spec. unfold Main.init_rag.
  destruct (endswith (filename pdf_files) (str ".pdf")); simpl.
  - split; [|done]. split; [|done].
    destruct (_ ≫= _) as [[pages txt]|msg]; simpl; discriminate.
  - split; [|done]. split; [done|done].
Qed.

(** An upload whose name is accepted fails with 500 "Error processing
    PDF: ..." carrying the message of the first step that raised:
    reading the upload, parsing it, or extracting the text of a page
    after the pages before it were extracted.  Nothing is stored then. *)
Theorem upload_reports_first_failure (pdf_files : UploadFile) (urandom16 : N)
    (pdf_sessions : gmap text text) :
  endswith (filename pdf_files) (str ".pdf") = true ->
  (forall msg, read pdf_files = Failed msg ->
     init_rag pdf_files urandom16 pdf_sessions =
       (pdf_sessions,
        Raise (HTTPException 500 (str "Error processing PDF: " ++ msg)))) /\
  (forall pdf_bytes msg,
     read pdf_files = Ok pdf_bytes -> PdfReader pdf_bytes = Failed msg ->
     init_rag pdf_files urandom16 pdf_sessions =
       (pdf_sessions,
        Raise (HTTPException 500 (str "Error processing PDF: " ++ msg)))) /\
  (forall pdf_bytes before pg rest texts msg,
     read pdf_files = Ok pdf_bytes ->
     PdfReader pdf_bytes = Ok (before ++ pg :: rest) ->
     extracted before texts -> extract_text pg = Failed msg ->
     init_rag pdf_files urandom16 pdf_sessions =
       (pdf_sessions,
        Raise (HTTPException 500 (str "Error processing PDF: " ++ msg)))).
Proof.
  intros Hname. unfold Main.init_rag. rewrite Hname. simpl.
  split; [|split].
  - by intros msg ->.
  - intros b msg -> Hr. simpl. by rewrite Hr.
  - intros b before pg rest texts msg -> Hr Hx Hpg. simpl. rewrite Hr. simpl.
    by rewrite (extract_pages_failed before pg rest texts [] msg Hx Hpg).
Qed.

Lemma init_rag_stores (pdf_files : UploadFile) (urandom16 : N)
    (pdf_sessions after : gmap text text) (resp : Upload.t) :
  init_rag pdf_files urandom16 pdf_sessions = (after, Return resp) ->
  exists pdf_bytes pages texts,
    read pdf_files = Ok pdf_bytes /\ PdfReader pdf_bytes = Ok pages /\
    extracted pages texts /\
    after !! Upload.session_id resp = Some (document_text texts) /\
    Upload.pages resp = length texts.
Proof.
  intros E.
  apply init_rag_Return in E as (b & pages & txt & Hb & Hp & Ht & -> & ->).
  apply extract_pages_spec in Ht as (texts & Hx & ->). simpl.
  exists b, pages, texts. repeat (split; [done|]).
  rewrite lookup_insert_eq. split; [done|].
  by apply Forall2_length in Hx.
Qed.

(** What a successful upload stores is the text of every page followed
    by a newline, in page order; the page count it answers is the number
    of those texts, and the stored text has at least one character per
    page and, when there is a page, ends with a newline. *)
Theorem stored_text_joins_pages (pdf_files : UploadFile) (urandom16 : N)
    (pdf_sessions after : gmap text text) (resp : Upload.t) :
  init_rag pdf_files urandom16 pdf_sessions = (after, Return resp) ->
  exists pdf_bytes pages texts,
    read pdf_files = Ok pdf_bytes /\ PdfReader pdf_bytes = Ok pages /\
    extracted pages texts /\
    after !! Upload.session_id resp = Some (document_text texts) /\
    Upload.pages resp = length texts /\
    length (document_text texts) =
      (sum_list (length <$> texts) + Upload.pages resp)%nat /\
    (texts <> [] -> str (String "010" EmptyString) `suffix_of` document_text texts).
Proof.
  intros E.
  destruct (init_rag_stores _ _ _ _ _ E)
    as (b & pages & texts & Hb & Hp & Hx & Hlook & Hlen).
  exists b, pages, texts. repeat (split; [done|]). split.
  - rewrite document_text_length. lia.
  - intros Hne. destruct (exists_last Hne) as (front & t & ->).
    unfold document_text. rewrite fmap_app, concat_app. simpl.
    rewrite app_nil_r, app_assoc. by eexists.
Qed.

(** Two uploads one after the other: when their UUIDs differ they get
    different identifiers and each identifier holds the text of its own
    document; when the second draws the UUID of the first, the
    assignment overwrites: the one identifier holds the text of the
    second document and the first document is gone. *)
Theorem second_upload_and_the_first (f1 f2 : UploadFile) (r1 r2 : N)
    (s0 s1 s2 : gmap text text) (resp1 resp2 : Upload.t) :
  init_rag f1 r1 s0 = (s1, Return resp1) ->
  init_rag f2 r2 s1 = (s2, Return resp2) ->
  exists b1 pages1 texts1 b2 pages2 texts2,
    (read f1 = Ok b1 /\ PdfReader b1 = Ok pages1 /\ extracted pages1 texts1) /\
    (read f2 = Ok b2 /\ PdfReader b2 = Ok pages2 /\ extracted pages2 texts2) /\
    (uuid4 r1 <> uuid4 r2 ->
       Upload.session_id resp1 <> Upload.session_id resp2 /\
       s2 !! Upload.session_id resp1 = Some (document_text texts1) /\
       s2 !! Upload.session_id resp2 = Some (document_text texts2)) /\
    (uuid4 r1 = uuid4 r2 ->
       Upload.session_id resp1 = Upload.session_id resp2 /\
       s2 !! Upload.session_id resp1 = Some (document_text texts2) /\
       s2 = <[Upload.session_id resp1 := document_text texts2]> s0).
Proof.
  intros E1 E2.
  apply init_rag_Return in E1 as (b1 & p1 & t1 & Hb1 & Hp1 & Ht1 & -> & ->).
  apply init_rag_Return in E2 as (b2 & p2 & t2 & Hb2 & Hp2 & Ht2 & -> & ->).
  apply extract_pages_spec in Ht1 as (texts1 & Hx1 & ->).
  apply extract_pages_spec in Ht2 as (texts2 & Hx2 & ->).
  exists b1, p1, texts1, b2, p2, texts2. simpl.
  split; [done|]. split; [done|]. split.
  - intros Hne.
    assert (Hsid : uuid_str (uuid4 r1) <> uuid_str (uuid4 r2)).
    { intros H. apply Hne. apply uuid_str_inj; [apply uuid4_128_bits..|done]. }
    split; [done|]. split.
    + rewrite lookup_insert_ne by done. by rewrite lookup_insert_eq.
    + by rewrite lookup_insert_eq.
  - intros ->. split; [done|].
    split; [apply lookup_insert_eq|apply insert_insert_eq].
Qed.

(** Every session the server holds at any time is well formed: its
    identifier is the text of a UUID drawn by some upload, 36 characters
    long, and its text is the page texts of a document, each followed by
    a newline. *)
Theorem sessions_are_well_formed (rqs : list request) (sid txt : text) :
  run rqs ∅ !! sid = Some txt ->
  length sid = 36%nat /\
  (exists f rnd, POST_init_rag f rnd ∈ rqs /\ sid = uuid_str (uuid4 rnd)) /\
  (exists texts, txt = document_text texts).
Proof.
  intros H.
  apply run_origin in H as [H|(f & rnd & b & pages & Hin & -> & _ & _ & Hx)].
  - by rewrite lookup_empty in H.
  - split; [apply uuid_str_length|]. split; [by exists f, rnd|].
    apply extract_pages_spec in Hx as (texts & _ & ->). by exists texts.
Qed.

Lemma handle_is_Some (rq : request) (pdf_sessions : gmap text text) (sid : text) :
  is_Some (pdf_sessions !! sid) -> is_Some ((handle rq pdf_sessions).1 !! sid).
Proof.
  destruct rq as [r|f rnd|r]; simpl; [done| |done].
  destruct (init_rag f rnd pdf_sessions) as [s' [resp|e]] eqn:E; simpl.
  - apply init_rag_Return in E as (? & ? & txt & _ & _ & _ & -> & _).
    intros H. rewrite lookup_insert_is_Some. destruct (decide
      (uuid_str (uuid4 rnd) = sid)); [by left|by right].
  - by apply init_rag_Raise in E as ->.
Qed.

Lemma handle_size (rq : request) (pdf_sessions : gmap text text) :
  (size pdf_sessions <= size (handle rq pdf_sessions).1)%nat /\
  (size (handle rq pdf_sessions).1 <=
   size pdf_sessions + (if is_upload rq then 1 else 0))%nat.
Proof.
  destruct rq as [r|f rnd|r]; simpl; [lia| |lia].
  destruct (init_rag f rnd pdf_sessions) as [s' [resp|e]] eqn:E; simpl.
  - apply init_rag_Return in E as (? & ? & txt & _ & _ & _ & -> & _).
    rewrite map_size_insert.
    destruct (pdf_sessions !! uuid_str (uuid4 rnd)); simpl; lia.
  - apply init_rag_Raise in E as ->. lia.
Qed.

(** Sessions only accumulate: whatever requests arrive, a session that
    exists is never removed, and the number of sessions grows by at most
    one per upload. *)
Theorem sessions_only_accumulate (rqs : list request)
    (pdf_sessions : gmap text text) :
  (forall sid, is_Some (pdf_sessions !! sid) ->
     is_Some (run rqs pdf_sessions !! sid)) /\
  (size pdf_sessions <= size (run rqs pdf_sessions))%nat /\
  (size (run rqs pdf_sessions) <= size pdf_sessions + uploads rqs)%nat.
Proof.
  revert pdf_sessions. induction rqs as [|rq rqs IH]; intros s.
  - simpl. unfold uploads. simpl. split; [done|lia].
  - destruct (IH (handle rq s).1) as (IH1 & IH2 & IH3).
    pose proof (handle_size rq s) as [Hs1 Hs2]. simpl.
    split; [|split].
    + intros sid H. by apply IH1, handle_is_Some.
    + lia.
    + unfold uploads in *. rewrite filter_cons.
      destruct (is_upload rq) eqn:Eu.
      * rewrite decide_True by done. simpl. lia.
      * rewrite decide_False by done. lia.
Qed.

Lemma run_is_Some (rqs : list request) : forall (pdf_sessions : gmap text text)
    (sid : text),
  is_Some (pdf_sessions !! sid) -> is_Some (run rqs pdf_sessions !! sid).
Proof.
  induction rqs as [|rq rqs IH]; intros s sid H; simpl; [done|].
  by apply IH, handle_is_Some.
Qed.

(** A session keeps its text as long as no upload draws its identifier. *)
Lemma run_keeps (rqs : list request) : forall (pdf_sessions : gmap text text)
    (sid txt : text),
  pdf_sessions !! sid = Some txt ->
  (forall f rnd, POST_init_rag f rnd ∈ rqs -> sid <> uuid_str (uuid4 rnd)) ->
  run rqs pdf_sessions !! sid = Some txt.
Proof.
  induction rqs as [|rq rqs IH]; intros s sid txt Hs Hne; simpl; [done|].
  apply IH.
  - rewrite (handle_other PdfReader extract_text environ_GEMINI_API_KEY
               generate_content model_predict rq s sid); [done|].
    destruct rq as [r|f rnd|r]; [done| |done]. apply (Hne f rnd). by left.
  - intros f rnd Hin. apply (Hne f rnd). by right.
Qed.

(** C7 (as amended): an accepted upload, one whose name ends in ".pdf"
    and whose content is read, parsed and extracted without error,
    stores the text of the document under the identifier
    [str(uuid.uuid4())] and answers that identifier; the identifier is a
    128-bit number with version field 4 in which every bit outside the
    version and variant fields is a random bit, printed as 36 characters
    without loss.  A rejected or failed upload stores nothing.  The
    upload writes that one entry and no other: the text under every
    other identifier is the same after as before.  The code does not
    test whether the identifier is in use, so a session under the drawn
    identifier is overwritten.  No request deletes a session, and a
    stored session keeps its text through any sequence of requests in
    which no upload draws its identifier. *)
Theorem C7_upload_writes_one_entry (pdf_files : UploadFile)
    (urandom16 : N) (pdf_sessions : gmap text text) :
  ((uuid4 urandom16 < 2 ^ 128)%N /\
   N.land (N.shiftr (uuid4 urandom16) 76) 15 = 4%N /\
   (forall i, (i < 128)%N -> i <> 62%N -> i <> 63%N ->
      ~ (76 <= i /\ i <= 79)%N ->
      N.testbit (uuid4 urandom16) i = N.testbit urandom16 i) /\
   length (uuid_str (uuid4 urandom16)) = 36%nat /\
   (forall r', uuid_str (uuid4 r') = uuid_str (uuid4 urandom16) ->
      uuid4 r' = uuid4 urandom16)) /\
  (forall pdf_bytes pages texts,
     endswith (filename pdf_files) (str ".pdf") = true ->
     read pdf_files = Ok pdf_bytes -> PdfReader pdf_bytes = Ok pages ->
     extracted pages texts ->
     init_rag pdf_files urandom16 pdf_sessions =
       (<[uuid_str (uuid4 urandom16) := document_text texts]> pdf_sessions,
        Return {| Upload.message := str "PDF processed successfully";
                  Upload.pages := length pages;
                  Upload.session_id := uuid_str (uuid4 urandom16) |})) /\
  (forall e,
     (init_rag pdf_files urandom16 pdf_sessions).2 = Raise e ->
     (init_rag pdf_files urandom16 pdf_sessions).1 = pdf_sessions) /\
  (forall id, id <> uuid_str (uuid4 urandom16) ->
     (init_rag pdf_files urandom16 pdf_sessions).1 !! id = pdf_sessions !! id) /\
  (forall rqs id, is_Some (pdf_sessions !! id) ->
     is_Some (run rqs pdf_sessions !! id)) /\
  (forall rqs id txt,
     pdf_sessions !! id = Some txt ->
     (forall f rnd, POST_init_rag f rnd ∈ rqs -> id <> uuid_str (uuid4 rnd)) ->
     run rqs pdf_sessions !! id = Some txt).
Proof.
  split; [|split; [|split; [|split; [|split]]]].
  - split; [apply uuid4_128_bits|]. split; [apply uuid4_version|].
    split; [intros i; apply uuid4_random_bits|].
    split; [apply uuid_str_length|].
    intros r' H. apply uuid_str_inj; [apply uuid4_128_bits..|done].
  - intros b pages texts Hname Hb Hp Hx.
    assert (Ht : extract_pages pages [] = Ok (document_text texts)).
    { apply extract_pages_spec. by exists texts. }
    unfold Main.init_rag. rewrite Hname. simpl. rewrite Hb. simpl.
    rewrite Hp. simpl. by rewrite Ht.
  - intros e Hr.
    destruct (init_rag pdf_files urandom16 pdf_sessions) as [s' r] eqn:E.
    simpl in *. subst r. by apply init_rag_Raise in E.
  - intros id Hne. by apply init_rag_other.
  - intros rqs id. apply run_is_Some.
  - intros rqs id txt. apply run_keeps.
Qed.

(** A question reads only the session it names: an upload that draws
    another identifier does not change its answer, and neither does any
    sequence of requests with fresh identifiers once the session
    exists. *)
Theorem answers_ignore_other_sessions (request : QuestionRequest)
    (pdf_sessions : gmap text text) :
  (forall f rnd, session_id request <> uuid_str (uuid4 rnd) ->
     ask_question request (init_rag f rnd pdf_sessions).1 =
     ask_question request pdf_sessions) /\
  (forall rqs, fresh_ids rqs pdf_sessions ->
     is_Some (pdf_sessions !! session_id request) ->
     ask_question request (run rqs pdf_sessions) =
     ask_question request pdf_sessions).
Proof.
  split.
  - intros f rnd Hne. unfold Main.ask_question.
    by rewrite (init_rag_other _ _ f rnd pdf_sessions _ Hne).
  - intros rqs Hfresh [txt Htxt]. unfold Main.ask_question.
    by rewrite (run_preserves _ _ _ _ _ rqs _ _ _ Hfresh Htxt), Htxt.
Qed.

(** After an accepted upload of a document with a page, a question on
    the identifier it answered is put to the backend with the text of
    exactly that document, and what the backend returns is the answer,
    unchanged; this stays so through later requests with fresh
    identifiers. *)
Theorem upload_then_ask (pdf_files : UploadFile) (urandom16 : N)
    (pdf_sessions after : gmap text text) (resp : Upload.t) :
  init_rag pdf_files urandom16 pdf_sessions = (after, Return resp) ->
  (1 <= Upload.pages resp)%nat ->
  API_KEY <> str "your_api_key_here" ->
  exists pdf_bytes pages texts,
    read pdf_files = Ok pdf_bytes /\ PdfReader pdf_bytes = Ok pages /\
    extracted pages texts /\
    forall q a,
      generate_content (prompt (document_text texts) q) = Ok a ->
      ask_question {| query := q; session_id := Upload.session_id resp |} after
        = Return {| answer := a |} /\
      forall rqs, fresh_ids rqs after ->
        ask_question {| query := q; session_id := Upload.session_id resp |}
          (run rqs after) = Return {| answer := a |}.
Proof.
  intros E Hpages Hkey.
  destruct (init_rag_stores _ _ _ _ _ E)
    as (b & pages & texts & Hb & Hp & Hx & Hlook & Hlen).
  exists b, pages, texts. repeat (split; [done|]).
  assert (Hne : document_text texts <> []).
  { rewrite document_text_nil. intros ->. simpl in Hlen. lia. }
  assert (Hask : forall s q a,
    s !! Upload.session_id resp = Some (document_text texts) ->
    generate_content (prompt (document_text texts) q) = Ok a ->
    ask_question {| query := q; session_id := Upload.session_id resp |} s
      = Return {| answer := a |}).
  { intros s q a Hs Ha.
    rewrite (ask_question_Some _ _
               {| query := q; session_id := Upload.session_id resp |} s _ Hs).
    rewrite !bool_decide_false by done. simpl. by rewrite Ha. }
  intros q a Ha. split; [by apply Hask|].
  intros rqs Hfresh. apply Hask; [|done]. by apply run_preserves.
Qed.

(** A question is answered exactly when its session exists with a text
    that is not empty, the API key is not the placeholder, and the
    backend returns; the answer is then what the backend returned for
    the prompt of that text and that query. *)
Theorem question_answered_iff (request : QuestionRequest)
    (pdf_sessions : gmap text text) (a : text) :
  ask_question request pdf_sessions = Return {| answer := a |} <->
  exists pdf_content,
    pdf_sessions !! session_id request = Some pdf_content /\
    pdf_content <> [] /\ API_KEY <> str "your_api_key_here" /\
    generate_content (prompt pdf_content (query request)) = Ok a.
Proof.
  split.
  - intros H.
    destruct (pdf_sessions !! session_id request) as [c|] eqn:E.
    + rewrite (ask_question_Some _ _ _ _ _ E) in H.
      case_bool_decide; [done|]. case_bool_decide; [done|].
      destruct (generate_content _) as [t|msg] eqn:Eg; [|done].
      injection H as ->. by exists c.
    + unfold Main.ask_question in H. by rewrite E in H.
  - intros (c & E & Hne & Hkey & Hg).
    rewrite (ask_question_Some _ _ _ _ _ E).
    rewrite !bool_decide_false by done. by rewrite Hg.
Qed.

(** The credential test compares the key with the placeholder text and
    nothing else: the variable GEMINI_API_KEY unset, or set to
    "your_api_key_here", gives BackendNotConfigured on a session with
    text; any other value, the empty string included, passes the test
    and the backend is called. *)
Theorem credential_is_compared_with_placeholder (request : QuestionRequest)
    (pdf_sessions : gmap text text) (pdf_content : text) :
  pdf_sessions !! session_id request = Some pdf_content ->
  pdf_content <> [] ->
  (BackendNotConfigured (ask_question request pdf_sessions) <->
   environ_GEMINI_API_KEY = None \/
   environ_GEMINI_API_KEY = Some (str "your_api_key_here")) /\
  (forall key, environ_GEMINI_API_KEY = Some key ->
     key <> str "your_api_key_here" ->
     ask_question request pdf_sessions =
       match generate_content (prompt pdf_content (query request)) with
       | Ok response_text => Return {| answer := response_text |}
       | Failed msg =>
           Raise (HTTPException 500 (str "Error generating answer: " ++ msg))
       end).
Proof.
  intros E Hne. rewrite (ask_question_Some _ _ _ _ _ E).
  rewrite bool_decide_false by done.
  unfold BackendNotConfigured, GEMINI_API_KEY, getenv. split.
  - destruct environ_GEMINI_API_KEY as [key|].
    + case_bool_decide as Hk.
      * split; [intros _; right; by f_equal|done].
      * split.
        -- destruct (generate_content _); discriminate.
        -- intros [H|[= H]]; [done|]. by destruct Hk.
    + rewrite bool_decide_true by done. split; [by left|done].
  - intros key -> Hkey. by rewrite bool_decide_false.
Qed.

(** The prompt is the fixed template of 329 characters, the first 10000
    characters of the document and the query: however long the document
    is, the prompt is at most 10329 characters longer than the query. *)
Theorem prompt_length (pdf_content query : text) :
  length (prompt pdf_content query) =
    (329 + Nat.min (N.to_nat 10000) (length pdf_content) + length query)%nat /\
  (length (prompt pdf_content query) <= 329 + N.to_nat 10000 + length query)%nat.
Proof.
  assert (H : length (prompt pdf_content query) =
    (329 + Nat.min (N.to_nat 10000) (length pdf_content) + length query)%nat).
  { unfold prompt. cbv zeta. rewrite !length_app, length_take.
    repeat match goal with
    | |- context [length (str ?x)] =>
        let v := eval vm_compute in (length (str x)) in
        change (length (str x)) with v
    end. lia. }
  split; [done|]. rewrite H. lia.
Qed.

(** The two spam endpoints on the same hard-label model, the one of this
    file and [detect_spam] of unified_api.py: on a text that passes
    validation they give the same verdict; [predict] does not validate,
    so it also answers texts that [detect_spam] rejects with 400; and a
    failure of the model leaves [predict] as the exception itself, while
    [detect_spam] turns it into a 500. *)
Theorem predict_and_detect_spam {features dense : Type}
    (g : UnifiedApi.globals features dense) (m : UnifiedApi.SpamModel)
    (d : text) :
  UnifiedApi.spam_detection_model g = Some m ->
  UnifiedApi.spam_predict_proba m = None ->
  (forall t, model_predict t = UnifiedApi.spam_predict m t) ->
  (UnifiedApi.too_short {| UnifiedApi.description := d |} = false ->
   forall b,
     UnifiedApi.detect_spam g {| UnifiedApi.description := d |} = Return
       {| UnifiedApi.Spam.is_spam := b;
          UnifiedApi.Spam.confidence_score := None |} <->
     predict model_predict {| description := d |} = Return {| spam := b |}) /\
  (UnifiedApi.too_short {| UnifiedApi.description := d |} = true ->
   InvalidInput (UnifiedApi.detect_spam g {| UnifiedApi.description := d |}) /\
   forall n, model_predict d = Ok n ->
     predict model_predict {| description := d |} =
       Return {| spam := UnifiedApi.bool_of_Z n |}) /\
  (forall msg, model_predict d = Failed msg ->
     predict model_predict {| description := d |} = Raise (Exception msg) /\
     (UnifiedApi.too_short {| UnifiedApi.description := d |} = false ->
      UnifiedApi.detect_spam g {| UnifiedApi.description := d |} =
        Raise (HTTPException 500 (str "Spam detection error: " ++ msg)))).
Proof.
  intros Hm Hp Hsame. unfold predict, UnifiedApi.detect_spam. simpl.
  rewrite Hm, Hp, Hsame. split; [|split].
  - intros ->. intros b.
    destruct (UnifiedApi.spam_predict m d) as [n|msg]; simpl; [|done].
    split; intros [= <-]; done.
  - intros ->. split; [by eexists|].
    intros n ->. done.
  - intros msg ->. simpl. split; [done|]. by intros ->.
Qed.

End Server.

(** *** Concrete runs *)

Section Runs.
Import Sample Fixtures.

Local Abbreviation init_rag := (Main.init_rag stub_reader stub_extract).
Local Abbreviation ask_question := (Main.ask_question api_key stub_backend).
Local Abbreviation run :=
  (Main.run stub_reader stub_extract api_key stub_backend stub_model).

(** A one-page document uploaded with the random bytes of an earlier
    three-page upload takes its identifier: the text stored for the
    existing session is not what it was. *)
Lemma C7_counterexample :
  (init_rag three_pages 0%N ∅).1 !! str "00000000-0000-4000-8000-000000000000"
    = Some (document_text [str "Refund policy: 30 days.";
                           str "Refund policy: 30 days.";
                           str "Refund policy: 30 days."]) /\
  (init_rag one_page 0%N (init_rag three_pages 0%N ∅).1).1
      !! str "00000000-0000-4000-8000-000000000000"
    = Some (document_text [str "Refund policy: 30 days."]) /\
  ~ (forall id txt,
       (init_rag three_pages 0%N ∅).1 !! id = Some txt ->
       (init_rag one_page 0%N (init_rag three_pages 0%N ∅).1).1 !! id = Some txt).
Proof.
  assert (H1 : (init_rag three_pages 0%N ∅).1
                 !! str "00000000-0000-4000-8000-000000000000"
               = Some (document_text [str "Refund policy: 30 days.";
                                      str "Refund policy: 30 days.";
                                      str "Refund policy: 30 days."]))
    by apply lookup_insert_eq.
  assert (H2 : (init_rag one_page 0%N (init_rag three_pages 0%N ∅).1).1
                 !! str "00000000-0000-4000-8000-000000000000"
               = Some (document_text [str "Refund policy: 30 days."]))
    by apply lookup_insert_eq.
  split; [exact H1|]. split; [exact H2|].
  intros H. specialize (H _ _ H1). rewrite H2 in H.
  vm_compute in H. discriminate H.
Qed.

Lemma C7_witness :
  endswith (filename three_pages) (str ".pdf") = true /\
  init_rag three_pages 0%N one_session =
    (<[str "00000000-0000-4000-8000-000000000000" :=
         document_text [str "Refund policy: 30 days.";
                        str "Refund policy: 30 days.";
                        str "Refund policy: 30 days."]]> one_session,
     Return three_pages_response) /\
  (init_rag three_pages 0%N one_session).1 !! str "doc-1"
    = Some (str "Refund policy: 30 days.").
Proof.
  destruct (C7_upload_writes_one_entry stub_reader stub_extract api_key
              stub_backend stub_model three_pages 0%N one_session)
    as (_ & Hstore & _ & Hframe & _).
  split; [reflexivity|]. split.
  - apply (Hstore [Byte.x01; Byte.x01; Byte.x01]
             [str "Refund policy: 30 days."; str "Refund policy: 30 days.";
              str "Refund policy: 30 days."]
             [str "Refund policy: 30 days."; str "Refund policy: 30 days.";
              str "Refund policy: 30 days."]); try reflexivity.
    repeat constructor.
  - rewrite Hframe; [apply lookup_singleton_eq|].
    vm_compute. discriminate.
Defined.

Lemma upload_reports_first_failure_witness :
  endswith (filename blank_second_page) (str ".pdf") = true /\
  Main.init_rag stub_reader strict_extract blank_second_page 0%N ∅ =
    (∅, Raise (HTTPException 500
          (str "Error processing PDF: " ++ str "page has no text layer"))).
Proof.
  split; [reflexivity|].
  destruct (upload_reports_first_failure stub_reader strict_extract
              blank_second_page 0%N ∅ eq_refl) as (_ & _ & H).
  apply (H [Byte.x01; Byte.x00; Byte.x01]
           [str "Refund policy: 30 days."] [] [str "Refund policy: 30 days."]
           [str "Refund policy: 30 days."]); try reflexivity.
  repeat constructor.
Defined.

Lemma stored_text_joins_pages_witness :
  init_rag three_pages 0%N ∅ =
    ((init_rag three_pages 0%N ∅).1, Return three_pages_response) /\
  exists texts,
    (init_rag three_pages 0%N ∅).1 !! Upload.session_id three_pages_response
      = Some (document_text texts) /\
    Upload.pages three_pages_response = length texts.
Proof.
  split; [exact three_pages_upload|].
  destruct (stored_text_joins_pages stub_reader stub_extract three_pages 0%N ∅
              _ _ three_pages_upload)
    as (b & pages & texts & _ & _ & _ & Hlook & Hlen & _).
  by exists texts.
Defined.

Lemma second_upload :
  init_rag three_pages 1%N (init_rag three_pages 0%N ∅).1 =
    ((init_rag three_pages 1%N (init_rag three_pages 0%N ∅).1).1,
     Return second_response).
Proof. reflexivity. Qed.

Lemma second_upload_witness :
  uuid4 0 <> uuid4 1 /\
  exists texts1,
    (init_rag three_pages 1%N (init_rag three_pages 0%N ∅).1).1
      !! Upload.session_id three_pages_response
    = Some (document_text texts1).
Proof.
  assert (Hne : uuid4 0 <> uuid4 1) by (vm_compute; discriminate).
  split; [exact Hne|].
  destruct (second_upload_and_the_first stub_reader stub_extract
              three_pages three_pages 0%N 1%N ∅ _ _ _ _
              three_pages_upload second_upload)
    as (b1 & p1 & texts1 & b2 & p2 & texts2 & _ & _ & H & _).
  destruct (H Hne) as (_ & Hfirst & _). by exists texts1.
Defined.

Lemma one_upload_stored :
  run [POST_init_rag three_pages 0%N] ∅
    !! str "00000000-0000-4000-8000-000000000000"
  = Some (document_text [str "Refund policy: 30 days.";
                         str "Refund policy: 30 days.";
                         str "Refund policy: 30 days."]).
Proof. apply lookup_insert_eq. Qed.

Lemma sessions_are_well_formed_witness :
  run [POST_init_rag three_pages 0%N] ∅
    !! str "00000000-0000-4000-8000-000000000000"
  = Some (document_text [str "Refund policy: 30 days.";
                         str "Refund policy: 30 days.";
                         str "Refund policy: 30 days."]) /\
  length (str "00000000-0000-4000-8000-000000000000") = 36%nat.
Proof.
  split; [exact one_upload_stored|].
  destruct (sessions_are_well_formed stub_reader stub_extract api_key
              stub_backend stub_model _ _ _ one_upload_stored) as [H _].
  exact H.
Defined.

Lemma upload_then_ask_witness :
  init_rag three_pages 0%N ∅ =
    ((init_rag three_pages 0%N ∅).1, Return three_pages_response) /\
  (1 <= Upload.pages three_pages_response)%nat /\
  GEMINI_API_KEY api_key <> str "your_api_key_here" /\
  ask_question
    {| query := str "What is the refund window?";
       session_id := Upload.session_id three_pages_response |}
    (init_rag three_pages 0%N ∅).1 = Return {| answer := str "30 days" |}.
Proof.
  assert (Hpages : (1 <= Upload.pages three_pages_response)%nat) by (simpl; lia).
  assert (Hkey : GEMINI_API_KEY api_key <> str "your_api_key_here")
    by (vm_compute; discriminate).
  split; [exact three_pages_upload|]. split; [exact Hpages|].
  split; [exact Hkey|].
  destruct (upload_then_ask stub_reader stub_extract api_key stub_backend
              stub_model three_pages 0%N ∅ _ _ three_pages_upload Hpages Hkey)
    as (b & pages & texts & _ & _ & _ & H).
  destruct (H (str "What is the refund window?") (str "30 days") eq_refl)
    as [Hnow _].
  exact Hnow.
Defined.

Lemma credential_witness :
  one_session !! session_id refund_question
    = Some (str "Refund policy: 30 days.") /\
  str "Refund policy: 30 days." <> [] /\
  BackendNotConfigured
    (Main.ask_question None stub_backend refund_question one_session) /\
  Main.ask_question (Some []) stub_backend refund_question one_session
    = Return {| answer := str "30 days" |}.
Proof.
  assert (Hsome : one_session !! session_id refund_question
                  = Some (str "Refund policy: 30 days."))
    by apply lookup_singleton_eq.
  assert (Hne : str "Refund policy: 30 days." <> []) by (vm_compute; discriminate).
  split; [exact Hsome|]. split; [exact Hne|]. split.
  - destruct (credential_is_compared_with_placeholder None stub_backend
                refund_question one_session _ Hsome Hne) as [H _].
    apply H. by left.
  - destruct (credential_is_compared_with_placeholder (Some []) stub_backend
                refund_question one_session _ Hsome Hne) as [_ H].
    rewrite (H [] eq_refl); [reflexivity|]. vm_compute. discriminate.
Defined.

Lemma predict_and_detect_spam_witness :
  UnifiedApi.spam_detection_model hard_loaded = Some spam_hard /\
  UnifiedApi.spam_predict_proba spam_hard = None /\
  InvalidInput (UnifiedApi.detect_spam hard_loaded hi) /\
  predict (UnifiedApi.spam_predict spam_hard)
    {| description := UnifiedApi.description hi |} = Return {| spam := true |}.
Proof.
  split; [reflexivity|]. split; [reflexivity|].
  destruct (predict_and_detect_spam (UnifiedApi.spam_predict spam_hard)
              hard_loaded spam_hard (UnifiedApi.description hi)
              eq_refl eq_refl (fun t => eq_refl)) as (_ & H & _).
  destruct (H eq_refl) as [Hd Hp]. split; [exact Hd|].
  apply (Hp 1%Z). reflexivity.
Defined.

End Runs.

End MainMore.
